(** * ATLAS evaluation scoring: a shallow embedding of
      [evaluation/scripts/atlas_data_analysis.py]

    The analyzers of the script are embedded class by class, one module per
    Python class.  Python numbers are exact rationals ([Q]); a numpy float
    that may be undefined is a [number] (a rational or [NaN]).  Rounding
    and infinities of IEEE doubles are outside the model.  A Python
    exception is a [Raise] in the [result] monad.  Strings are sequences of
    8-bit characters, and comments are read as ASCII text. *)

From Stdlib Require Import QArith Lia Lqa Ascii.
From stdpp Require Import base option list strings gmap.

Local Open Scope string_scope.

(** ** Exceptions and the error monad *)

Inductive exn : Type :=
  | ZeroDivisionError
  | KeyError (key : string)
  | TypeError.

Inductive result (A : Type) : Type :=
  | Ok (a : A)
  | Raise (e : exn).

Arguments Ok {A} a.
Arguments Raise {A} e.

#[global] Instance result_ret : MRet result := fun A a => Ok a.

#[global] Instance result_bind : MBind result := fun A B k r =>
  match r with
  | Ok a => k a
  | Raise e => Raise e
  end.

(** ** Python arithmetic on exact numbers *)

Definition of_int (n : nat) : Q := inject_Z (Z.of_nat n).

(** [a / b] on Python ints and floats: true division, which raises
    [ZeroDivisionError] on a zero divisor. *)
Definition truediv (a b : Q) : result Q :=
  if Qeq_bool b 0 then Raise ZeroDivisionError else Ok (a / b)%Q.

(** [a <= b], [a >= b] and [a > b] on Python numbers. *)
Definition le (a b : Q) : bool := Qle_bool a b.
Definition ge (a b : Q) : bool := Qle_bool b a.
Definition gt (a b : Q) : bool := negb (Qle_bool a b).

(** The sum of a list of exact numbers. *)
Definition total (qs : list Q) : Q := foldr Qplus 0%Q qs.

(** ** numpy floats: a rational or NaN *)

Inductive number : Type :=
  | Num (q : Q)
  | NaN.

(** Every ordered comparison with NaN is false. *)
Definition num_le (a b : number) : bool :=
  match a, b with
  | Num x, Num y => Qle_bool x y
  | _, _ => false
  end.

Definition num_ge (a b : number) : bool := num_le b a.

Definition num_add (a b : number) : number :=
  match a, b with
  | Num x, Num y => Num (x + y)
  | _, _ => NaN
  end.

(** numpy division: a zero divisor yields NaN (for 0/0; the infinities of
    x/0 are folded into NaN) and never raises. *)
Definition num_div (a b : number) : number :=
  match a, b with
  | Num x, Num y => if Qeq_bool y 0 then NaN else Num (x / y)
  | _, _ => NaN
  end.

(** [np.mean(l)]: the sum divided by the length; NaN on the empty list
    (numpy only warns, and the script silences warnings). *)
Definition np_mean (l : list number) : number :=
  num_div (foldr num_add (Num 0) l) (Num (of_int (length l))).

(** The order of numbers as a proposition: false at NaN, like the test. *)
Definition num_leP (a b : number) : Prop :=
  match a, b with
  | Num x, Num y => (x <= y)%Q
  | _, _ => False
  end.

(** ** Python dicts built by a loop: association lists in insertion order *)

Fixpoint dict_get {V : Type} (d : list (string * V)) (k : string) : option V :=
  match d with
  | [] => None
  | (k', v) :: d' => if String.eqb k' k then Some v else dict_get d' k
  end.

(** [d[k]], raising [KeyError] on a missing key. *)
Definition dict_item {V : Type} (d : list (string * V)) (k : string) : result V :=
  match dict_get d k with
  | Some v => Ok v
  | None => Raise (KeyError k)
  end.

(** [d[k] = v]: overwrite in place when the key exists, append otherwise. *)
Fixpoint dict_set {V : Type} (d : list (string * V)) (k : string) (v : V)
  : list (string * V) :=
  match d with
  | [] => [(k, v)]
  | (k', v') :: d' =>
      if String.eqb k' k then (k', v) :: d' else (k', v') :: dict_set d' k v
  end.

(** ** 1. ATLASPerformanceAnalyzer *)

Module ATLASPerformanceAnalyzer.

(** The [targets] dict of [analyze_performance_metrics]. *)
Definition targets : list (string * Q) :=
  [ ("pwa_score", 90%Q);
    ("performance_score", 80%Q);
    ("first_contentful_paint", 2%Q);
    ("time_to_interactive", 3%Q);
    ("offline_success_rate", 95%Q) ].

(** [metric in ['pwa_score', 'performance_score', 'offline_success_rate']] *)
Definition higher_is_better (metric : string) : bool :=
  bool_decide (metric ∈ ["pwa_score"; "performance_score"; "offline_success_rate"]).

Record comparison : Type := {
  actual : Q;
  target : Q;
  meets_target : bool;
  variance_percent : Q
}.

(** The dict literal stored in [results[metric]]: the body of the loop,
    for the loop variables [metric] and [target] and the looked-up
    [actual]. *)
Definition compare (metric : string) (target actual : Q) : result comparison :=
  let meets := if higher_is_better metric then ge actual target
               else le actual target in
  q ← truediv (actual - target)%Q target;
  Ok {| actual := actual; target := target; meets_target := meets;
        variance_percent := (q * 100)%Q |}.

Fixpoint analyze_loop (items : list (string * Q)) (metrics_data : gmap string Q)
    (results : list (string * comparison)) : result (list (string * comparison)) :=
  match items with
  | [] => Ok results
  | (metric, target) :: items' =>
      match metrics_data !! metric with
      | Some actual =>
          c ← compare metric target actual;
          analyze_loop items' metrics_data (dict_set results metric c)
      | None => analyze_loop items' metrics_data results
      end
  end.

Definition analyze_performance_metrics (metrics_data : gmap string Q)
  : result (list (string * comparison)) :=
  analyze_loop targets metrics_data [].

Record summary : Type := {
  total_metrics : nat;
  targets_met : nat;
  overall_score : Q
}.

Record report : Type := {
  timestamp : string;
  app_url : string;
  metrics_analysis : list (string * comparison);
  report_summary : summary
}.

(** [sum(1 for m in analysis.values() if m['meets_target'])] *)
Definition count_met (analysis : list (string * comparison)) : nat :=
  length (filter (fun kv => meets_target kv.2 = true) analysis).

(** [now] stands for [datetime.now().isoformat()] and [url] for
    [self.app_url]. *)
Definition generate_performance_report (url now : string)
    (metrics_data : gmap string Q) : result report :=
  analysis ← analyze_performance_metrics metrics_data;
  ratio ← truediv (of_int (count_met analysis)) (of_int (length analysis));
  Ok {| timestamp := now;
        app_url := url;
        metrics_analysis := analysis;
        report_summary :=
          {| total_metrics := length analysis;
             targets_met := count_met analysis;
             overall_score := (ratio * 100)%Q |} |}.

(** *** Lighthouse data *)

(** A leaf of the Lighthouse JSON read by [collect_lighthouse_data]: a
    number or null. *)
Inductive jvalue : Type :=
  | JNumber (q : Q)
  | JNull.

(** The parsed Lighthouse JSON ([json.load] of the file): the objects
    under ['categories'] and ['audits'], each absent or a map from an id to
    an object of leaves. *)
Record lighthouse : Type := {
  categories : option (gmap string (gmap string jvalue));
  audits : option (gmap string (gmap string jvalue))
}.

(** [section.get(id, {}).get(key, 0)] where [section] is
    [lighthouse_data.get(name, {})]. *)
Definition leaf (section : option (gmap string (gmap string jvalue)))
    (id key : string) : jvalue :=
  default (JNumber 0) (default ∅ (default ∅ section !! id) !! key).

(** [v * k] and [v / k] for a number [k]; on null (Python's [None]) both
    raise [TypeError]. *)
Definition times (v : jvalue) (k : Q) : result Q :=
  match v with
  | JNumber q => Ok (q * k)%Q
  | JNull => Raise TypeError
  end.

Definition over (v : jvalue) (k : Q) : result Q :=
  match v with
  | JNumber q => truediv q k
  | JNull => Raise TypeError
  end.

Record lighthouse_metrics : Type := {
  pwa_score : Q;
  performance_score : Q;
  first_contentful_paint : Q;
  time_to_interactive : Q;
  cumulative_layout_shift : jvalue
}.

Definition collect_lighthouse_data (lighthouse_data : lighthouse)
  : result lighthouse_metrics :=
  pwa ← times (leaf (categories lighthouse_data) "pwa" "score") 100;
  perf ← times (leaf (categories lighthouse_data) "performance" "score") 100;
  fcp ← over (leaf (audits lighthouse_data) "first-contentful-paint" "numericValue") 1000;
  tti ← over (leaf (audits lighthouse_data) "interactive" "numericValue") 1000;
  Ok {| pwa_score := pwa;
        performance_score := perf;
        first_contentful_paint := fcp;
        time_to_interactive := tti;
        cumulative_layout_shift :=
          leaf (audits lighthouse_data) "cumulative-layout-shift" "numericValue" |}.

(** The metrics dict as [analyze_performance_metrics] receives it.  The
    layout shift, which may be null, is a key only when it is a number; the
    analysis never reads that key. *)
Definition metrics_dict (m : lighthouse_metrics) : gmap string Q :=
  let numeric : gmap string Q :=
    <["pwa_score" := pwa_score m]>
      (<["performance_score" := performance_score m]>
         (<["first_contentful_paint" := first_contentful_paint m]>
            (<["time_to_interactive" := time_to_interactive m]> ∅))) in
  match cumulative_layout_shift m with
  | JNumber q => <["cumulative_layout_shift" := q]> numeric
  | JNull => numeric
  end.

End ATLASPerformanceAnalyzer.

(** ** 2. ClinicalScenarioAnalyzer *)

Module ClinicalScenarioAnalyzer.

(** A row of [results_df], restricted to the two label columns read by
    [calculate_clinical_metrics]. *)
Record outcome : Type := {
  who_aligned : bool;
  expected_alignment : bool
}.

(** [len(results_df[(who_aligned == a) & (expected_alignment == e)])] *)
Definition cell (a e : bool) (results_df : list outcome) : nat :=
  length (filter (fun r => who_aligned r = a /\ expected_alignment r = e) results_df).

Record metrics : Type := {
  accuracy : Q;
  precision : Q;
  recall : Q;
  specificity : Q;
  f1_score : Q
}.

(** The five entries of the [metrics] dict literal, in the order in which
    Python evaluates them. *)
Definition accuracy_of (tp fp tn fn : nat) : result Q :=
  truediv (of_int (tp + tn)) (of_int (tp + fp + tn + fn)).

Definition precision_of (tp fp : nat) : result Q :=
  if (0 <? tp + fp)%nat then truediv (of_int tp) (of_int (tp + fp)) else Ok 0%Q.

Definition recall_of (tp fn : nat) : result Q :=
  if (0 <? tp + fn)%nat then truediv (of_int tp) (of_int (tp + fn)) else Ok 0%Q.

Definition specificity_of (tn fp : nat) : result Q :=
  if (0 <? tn + fp)%nat then truediv (of_int tn) (of_int (tn + fp)) else Ok 0%Q.

Definition f1_score_of (tp fp fn : nat) : result Q :=
  if (0 <? tp)%nat then
    p1 ← truediv (of_int tp) (of_int (tp + fp));
    r1 ← truediv (of_int tp) (of_int (tp + fn));
    p2 ← truediv (of_int tp) (of_int (tp + fp));
    r2 ← truediv (of_int tp) (of_int (tp + fn));
    truediv (2 * (p1 * r1))%Q (p2 + r2)%Q
  else Ok 0%Q.

Definition metrics_of_counts (tp fp tn fn : nat) : result metrics :=
  a ← accuracy_of tp fp tn fn;
  p ← precision_of tp fp;
  r ← recall_of tp fn;
  s ← specificity_of tn fp;
  f ← f1_score_of tp fp fn;
  Ok {| accuracy := a; precision := p; recall := r; specificity := s; f1_score := f |}.

Definition calculate_clinical_metrics (results_df : list outcome) : result metrics :=
  let tp := cell true true results_df in
  let fp := cell true false results_df in
  let tn := cell false false results_df in
  let fn := cell false true results_df in
  metrics_of_counts tp fp tn fn.

(** *** WHO alignment *)

Definition scenario_categories : list string :=
  ["WHO_IMCI"; "Maternal_Health"; "General_Medicine"; "Emergency"].

(** A row of the results frame read by [analyze_who_alignment]: its
    category and three columns of booleans, which the test generator
    leaves at [None] while a scenario is pending. *)
Record result_row : Type := {
  row_category : string;
  row_who_aligned : option bool;
  row_appropriate_recommendation : option bool;
  row_resource_aware : option bool
}.

(** The results frame: with the four columns, or without any column (the
    default [pd.DataFrame()] of the integrated report). *)
Inductive results_frame : Type :=
  | Rows (rows : list result_row)
  | NoColumns.

(** [len(category_data[category_data[col] == True])] *)
Definition count_true (col : result_row -> option bool)
    (category_data : list result_row) : nat :=
  length (filter (fun r => col r = Some true) category_data).

Record alignment : Type := {
  total_cases : nat;
  who_aligned_cases : nat;
  alignment_percentage : Q;
  appropriate_recommendations : nat;
  appropriateness_percentage : Q;
  resource_aware_cases : nat;
  resource_awareness_percentage : Q
}.

(** The dict literal stored for one category. *)
Definition category_alignment (category_data : list result_row) : result alignment :=
  let n := length category_data in
  a ← truediv (of_int (count_true row_who_aligned category_data)) (of_int n);
  p ← truediv (of_int (count_true row_appropriate_recommendation category_data))
              (of_int n);
  r ← truediv (of_int (count_true row_resource_aware category_data)) (of_int n);
  Ok {| total_cases := n;
        who_aligned_cases := count_true row_who_aligned category_data;
        alignment_percentage := (a * 100)%Q;
        appropriate_recommendations :=
          count_true row_appropriate_recommendation category_data;
        appropriateness_percentage := (p * 100)%Q;
        resource_aware_cases := count_true row_resource_aware category_data;
        resource_awareness_percentage := (r * 100)%Q |}.

Fixpoint alignment_loop (cats : list string) (rows : list result_row)
    (alignment_analysis : list (string * alignment))
  : result (list (string * alignment)) :=
  match cats with
  | [] => Ok alignment_analysis
  | category :: cats' =>
      let category_data := filter (fun r => row_category r = category) rows in
      a ← category_alignment category_data;
      alignment_loop cats' rows (dict_set alignment_analysis category a)
  end.

(** On a frame without columns the first [results_df['category']] raises
    [KeyError]. *)
Definition analyze_who_alignment (results_df : results_frame)
  : result (list (string * alignment)) :=
  match results_df with
  | Rows rows => alignment_loop scenario_categories rows []
  | NoColumns => Raise (KeyError "category")
  end.

(** *** Synthetic scenarios *)

Record template : Type := {
  age : string;
  gestation : option string;
  symptoms : string;
  expected : string
}.

Definition scenario_templates : list (string * list template) :=
  [ ("WHO_IMCI",
     [ {| age := "2 years"; gestation := None;
          symptoms := "fever, cough, fast breathing";
          expected := "pneumonia_protocol" |};
       {| age := "8 months"; gestation := None;
          symptoms := "diarrhea, dehydration signs";
          expected := "diarrhea_management" |};
       {| age := "18 months"; gestation := None;
          symptoms := "fever, lethargy, poor feeding";
          expected := "serious_infection" |} ]);
    ("Maternal_Health",
     [ {| age := "28 years"; gestation := Some "36 weeks";
          symptoms := "severe headache, BP 160/110";
          expected := "preeclampsia_management" |};
       {| age := "22 years"; gestation := Some "20 weeks";
          symptoms := "bleeding, cramping";
          expected := "threatened_abortion" |};
       {| age := "35 years"; gestation := Some "28 weeks";
          symptoms := "decreased fetal movement";
          expected := "fetal_monitoring" |} ]);
    ("General_Medicine",
     [ {| age := "45 years"; gestation := None;
          symptoms := "chest pain, shortness of breath";
          expected := "cardiac_evaluation" |};
       {| age := "60 years"; gestation := None;
          symptoms := "chronic cough, weight loss";
          expected := "TB_screening" |};
       {| age := "35 years"; gestation := None;
          symptoms := "polyuria, polydipsia, weight loss";
          expected := "diabetes_screening" |} ]);
    ("Emergency",
     [ {| age := "25 years"; gestation := None;
          symptoms := "unconscious, fever, neck stiffness";
          expected := "meningitis_protocol" |};
       {| age := "55 years"; gestation := None;
          symptoms := "severe chest pain, sweating";
          expected := "MI_protocol" |};
       {| age := "30 years"; gestation := None;
          symptoms := "severe abdominal pain, guarding";
          expected := "acute_abdomen" |} ]) ].

Record scenario : Type := {
  id : nat;
  category : string;
  patient_age : string;
  scenario_symptoms : string;
  expected_protocol : string;
  resource_level : string;
  created_at : string
}.

Definition resource_levels : list string := ["basic"; "intermediate"; "advanced"].

(** [templates[i % len(templates)]]: the modulo raises on an empty list,
    and the index is in range otherwise. *)
Definition cycle (templates : list template) (i : nat) : result template :=
  match templates with
  | [] => Raise ZeroDivisionError
  | t :: _ => Ok (nth (i mod length templates) templates t)
  end.

(** The inner loop, for [i] from [i] up to [i + todo - 1].  [rng k] is the
    index drawn by the [k]-th call of [np.random.choice] and [clock k] the
    time read by the [k]-th call of [datetime.now]; both calls are made once
    per scenario, so [k] is the scenario id less one. *)
Fixpoint category_loop (rng : nat -> nat) (clock : nat -> string)
    (category : string) (templates : list template) (todo i : nat)
    (scenarios : list scenario) (scenario_id : nat)
  : result (list scenario * nat) :=
  match todo with
  | O => Ok (scenarios, scenario_id)
  | S todo' =>
      t ← cycle templates i;
      let sc :=
        {| id := scenario_id;
           category := category;
           patient_age := age t;
           scenario_symptoms := symptoms t;
           expected_protocol := expected t;
           resource_level :=
             nth (rng (scenario_id - 1) mod length resource_levels)
                 resource_levels "basic";
           created_at := clock (scenario_id - 1) |} in
      category_loop rng clock category templates todo' (S i)
        (scenarios ++ [sc])%list (S scenario_id)
  end.

Fixpoint scenario_loop (rng : nat -> nat) (clock : nat -> string)
    (items : list (string * list template)) (count_per_category : nat)
    (scenarios : list scenario) (scenario_id : nat) : result (list scenario) :=
  match items with
  | [] => Ok scenarios
  | (category, templates) :: items' =>
      st ← category_loop rng clock category templates count_per_category 0
             scenarios scenario_id;
      scenario_loop rng clock items' count_per_category st.1 st.2
  end.

(** The rows of the frame returned by [create_synthetic_scenarios]. *)
Definition create_synthetic_scenarios (rng : nat -> nat) (clock : nat -> string)
    (count_per_category : nat) : result (list scenario) :=
  scenario_loop rng clock scenario_templates count_per_category [] 1.

End ClinicalScenarioAnalyzer.

(** ** 3. ExpertEvaluationAnalyzer *)

Module ExpertEvaluationAnalyzer.

(** *** pandas frames, as far as [analyze_expert_responses] reads them *)

(** A cell of a frame: a string, a number, a boolean or a missing value. *)
Inductive value : Type :=
  | Str (s : string)
  | Float (q : Q)
  | Bool (b : bool)
  | NA.

(** A frame is its number of rows and its named columns (each column is
    a Series, here the list of its cells). *)
Record DataFrame : Type := {
  index_len : nat;
  columns : list (string * list value)
}.

(** [df.empty]: true when either axis has length 0. *)
Definition empty (df : DataFrame) : bool :=
  (index_len df =? 0)%nat || (length (columns df) =? 0)%nat.

(** [df.get(name, pd.Series())] *)
Definition get (df : DataFrame) (name : string) : list value :=
  default [] (dict_get (columns df) name).

Definition value_eqb (a b : value) : bool :=
  match a, b with
  | Str s, Str t => String.eqb s t
  | Float p, Float q => Qeq_bool p q
  | Bool x, Bool y => Bool.eqb x y
  | _, _ => false
  end.

Fixpoint incr (counts : list (value * nat)) (v : value) : list (value * nat) :=
  match counts with
  | [] => [(v, 1%nat)]
  | (k, n) :: counts' =>
      if value_eqb k v then (k, S n) :: counts' else (k, n) :: incr counts' v
  end.

(** [s.value_counts().to_dict()]: occurrences of each value present,
    missing values dropped.  The keys are listed by first occurrence
    (pandas lists them by count; a dict does not distinguish orders). *)
Definition value_counts (s : list value) : list (value * nat) :=
  foldl (fun counts v => match v with NA => counts | _ => incr counts v end) [] s.

(** The numeric reading of a cell by a reduction that skips missing
    values; a string cell makes the reduction raise. *)
Definition numeric (v : value) : result (option Q) :=
  match v with
  | Float q => Ok (Some q)
  | Bool b => Ok (Some (if b then 1%Q else 0%Q))
  | NA => Ok None
  | Str _ => Raise TypeError
  end.

Fixpoint numerics (s : list value) : result (list Q) :=
  match s with
  | [] => Ok []
  | v :: s' =>
      o ← numeric v;
      qs ← numerics s';
      Ok (match o with Some q => q :: qs | None => qs end)
  end.

(** [s.sum()] *)
Definition series_sum (s : list value) : result Q :=
  qs ← numerics s; Ok (total qs).

(** [s.mean()]: NaN when no value is present. *)
Definition series_mean (s : list value) : result number :=
  qs ← numerics s;
  Ok (num_div (Num (total qs)) (Num (of_int (length qs)))).

(** [s.std()]: the sample standard deviation (one degree of freedom
    removed), NaN below two values.  [sqrt] is the square root of floats,
    which leaves [Q] and is a parameter of the model. *)
Definition series_std (sqrt : Q -> Q) (s : list value) : result number :=
  qs ← numerics s;
  Ok (match qs with
      | [] | [_] => NaN
      | _ =>
          let n := of_int (length qs) in
          let m := (total qs / n)%Q in
          let ss := total (map (fun q => (q - m) * (q - m))%Q qs) in
          Num (sqrt (ss / (n - 1))%Q)
      end).

(** [len(s[s > bound])] *)
Fixpoint count_above (bound : Q) (s : list value) : result nat :=
  match s with
  | [] => Ok 0%nat
  | v :: s' =>
      o ← numeric v;
      n ← count_above bound s';
      Ok (match o with
          | Some q => if gt q bound then S n else n
          | None => n
          end)
  end.

(** *** The analysis *)

Record response_summary : Type := {
  total_experts : nat;
  expert_types : list (value * nat);
  avg_years_experience : number;
  resource_limited_experience_pct : Q;
  summary_note : option string
}.

Record sus_analysis : Type := {
  mean_sus : number;
  std_sus : number;
  sus_grade : string;
  above_average : Q;
  sus_note : option string
}.

Record analysis : Type := {
  a_response_summary : response_summary;
  a_sus_analysis : sus_analysis
}.

Definition calculate_sus_grade (sus_score : number) : string :=
  if num_ge sus_score (Num 85) then "A"
  else if num_ge sus_score (Num 80) then "B"
  else if num_ge sus_score (Num 70) then "C"
  else if num_ge sus_score (Num 50) then "D"
  else "F".

(** The placeholder returned for an empty frame (the branch also prints
    one line, which the model leaves out). *)
Definition placeholder : analysis :=
  {| a_response_summary :=
       {| total_experts := 0;
          expert_types := [];
          avg_years_experience := Num 0;
          resource_limited_experience_pct := 0;
          summary_note := Some "No expert evaluation data collected yet" |};
     a_sus_analysis :=
       {| mean_sus := Num 0;
          std_sus := Num 0;
          sus_grade := "N/A";
          above_average := 0;
          sus_note := Some "Expert evaluation pending" |} |}.

Definition sus_column : string := "overall_assessment_system_usability_scale".

Definition analyze_expert_responses (sqrt : Q -> Q)
    (expert_responses_df : DataFrame) : result analysis :=
  if empty expert_responses_df then Ok placeholder
  else
    let n := index_len expert_responses_df in
    avg ← series_mean (get expert_responses_df "years_experience");
    pct ← (if (0 <? n)%nat then
             k ← series_sum (get expert_responses_df "resource_limited_experience");
             q ← truediv k (of_int n);
             Ok (q * 100)%Q
           else Ok 0%Q);
    let summary :=
      {| total_experts := n;
         expert_types := value_counts (get expert_responses_df "expert_type");
         avg_years_experience := avg;
         resource_limited_experience_pct := pct;
         summary_note := None |} in
    match dict_get (columns expert_responses_df) sus_column with
    | Some sus_scores =>
        m ← series_mean sus_scores;
        sd ← series_std sqrt sus_scores;
        m' ← series_mean sus_scores;
        above ← count_above 70 sus_scores;
        q ← truediv (of_int above) (of_int (length sus_scores));
        Ok {| a_response_summary := summary;
              a_sus_analysis :=
                {| mean_sus := m;
                   std_sus := sd;
                   sus_grade := calculate_sus_grade m';
                   above_average := (q * 100)%Q;
                   sus_note := None |} |}
    | None =>
        Ok {| a_response_summary := summary;
              a_sus_analysis :=
                {| mean_sus := Num 0;
                   std_sus := Num 0;
                   sus_grade := "N/A";
                   above_average := 0;
                   sus_note := Some "SUS data not available" |} |}
    end.

(** *** Thematic analysis *)

Definition themes : list (string * list string) :=
  [ ("usability",
     ["easy"; "intuitive"; "user-friendly"; "simple"; "complex"; "difficult"]);
    ("clinical_safety",
     ["safe"; "dangerous"; "risk"; "accurate"; "error"; "mistake"]);
    ("technical_issues",
     ["bug"; "crash"; "slow"; "fast"; "reliable"; "unstable"]);
    ("deployment_concerns",
     ["training"; "cost"; "infrastructure"; "support"; "maintenance"]);
    ("positive_feedback",
     ["excellent"; "good"; "helpful"; "useful"; "valuable"]);
    ("negative_feedback",
     ["poor"; "bad"; "problematic"; "concerning"; "inadequate"]) ].

(** An element of [comments_data]: a string, or anything else (None,
    NaN, a number), which the tagger skips. *)
Inductive comment : Type :=
  | Text (s : string)
  | Other.

(** [str.lower] on ASCII text: A-Z are mapped to a-z and every other
    character is kept (the lower case of letters beyond ASCII is outside
    the model). *)
Definition lower_char (c : ascii) : ascii :=
  let n := nat_of_ascii c in
  if (65 <=? n)%nat && (n <=? 90)%nat then ascii_of_nat (n + 32) else c.

Fixpoint lower (s : string) : string :=
  match s with
  | EmptyString => EmptyString
  | String c s' => String (lower_char c) (lower s')
  end.

(** [keyword in text] *)
Fixpoint contains (keyword text : string) : bool :=
  String.prefix keyword text ||
  match text with
  | EmptyString => false
  | String _ text' => contains keyword text'
  end.

Record theme_result : Type := {
  mentions : nat;
  examples : list string
}.

(** The innermost loop: the first keyword found counts the comment and
    leaves the loop. *)
Fixpoint keyword_loop (keywords : list string) (comment comment_lower : string)
    (r : theme_result) : theme_result :=
  match keywords with
  | [] => r
  | keyword :: keywords' =>
      if contains keyword comment_lower then
        {| mentions := S (mentions r);
           examples :=
             if (length (examples r) <? 3)%nat
             then examples r ++ [String.substring 0 100 comment +:+ "..."]
             else examples r |}
      else keyword_loop keywords' comment comment_lower r
  end.

Fixpoint comment_loop (keywords : list string) (comments_data : list comment)
    (r : theme_result) : theme_result :=
  match comments_data with
  | [] => r
  | c :: comments' =>
      comment_loop keywords comments'
        (match c with
         | Text (String a s) =>
             keyword_loop keywords (String a s) (lower (String a s)) r
         | _ => r
         end)
  end.

Fixpoint theme_loop (ths : list (string * list string)) (comments_data : list comment)
    (thematic_results : list (string * theme_result)) : list (string * theme_result) :=
  match ths with
  | [] => thematic_results
  | (theme, keywords) :: ths' =>
      theme_loop ths' comments_data
        (dict_set thematic_results theme
           (comment_loop keywords comments_data {| mentions := 0; examples := [] |}))
  end.

Definition perform_thematic_analysis (comments_data : list comment)
  : list (string * theme_result) :=
  theme_loop themes comments_data [].

(** *** The survey template *)

(** The template dict.  Its ['resource_limited_experience'] entry is the
    expression [True/False], a division of the integers 1 and 0 that is
    evaluated while the first inner dict is built. *)
Definition create_expert_survey_template
  : result (list (string * list (string * value))) :=
  flag ← truediv 1 0;
  Ok [ ("expert_demographics",
        [ ("expert_id", Str ""); ("expert_type", Str "");
          ("years_experience", Float 0);
          ("resource_limited_experience", Float flag);
          ("evaluation_date", Str "") ]);
       ("clinical_appropriateness",
        [ ("safety_assessment", Float 0); ("diagnostic_accuracy", Float 0);
          ("treatment_recommendations", Float 0);
          ("clinical_workflow_integration", Float 0); ("comments", Str "") ]);
       ("technical_implementation",
        [ ("user_interface_design", Float 0); ("offline_functionality", Float 0);
          ("performance_characteristics", Float 0); ("system_reliability", Float 0);
          ("comments", Str "") ]);
       ("implementation_feasibility",
        [ ("deployment_requirements", Float 0); ("training_needs", Float 0);
          ("sustainability_factors", Float 0); ("cost_effectiveness", Float 0);
          ("comments", Str "") ]);
       ("overall_assessment",
        [ ("system_usability_scale", Float 0); ("recommendation_likelihood", Float 0);
          ("deployment_readiness", Float 0); ("overall_satisfaction", Float 0);
          ("comments", Str "") ]) ].

End ExpertEvaluationAnalyzer.

(** ** 4. FrameworkAssessmentAnalyzer *)

Module FrameworkAssessmentAnalyzer.

Definition nasss_domains : list string :=
  [ "technology"; "value_proposition"; "adopters"; "organization";
    "wider_system"; "embedding"; "adaptation" ].

Definition reaim_dimensions : list string :=
  [ "reach"; "effectiveness"; "adoption"; "implementation"; "maintenance" ].

Definition get_nasss_complexity_level (score : number) : string :=
  if num_le score (Num 2) then "Simple"
  else if num_le score (Num 3) then "Complicated"
  else if num_le score (Num 4) then "Complex"
  else "Chaotic".

Definition get_reaim_readiness_level (score : number) : string :=
  if num_ge score (Num 8) then "High Readiness"
  else if num_ge score (Num 6) then "Moderate Readiness"
  else if num_ge score (Num 4) then "Low Readiness"
  else "Not Ready".

(** An entry of either result dict; [level] is the entry's
    ['complexity_level'] or ['readiness_level']. *)
Record scored : Type := {
  score : number;
  level : string
}.

(** The loop shared by both scorers, over the vocabulary [names] with the
    labelling function [level_of].  The raw scores of an assessment are
    finite numbers. *)
Fixpoint score_loop (level_of : number -> string) (names : list string)
    (assessment_data : gmap string Q) (scores : list (string * scored))
  : list (string * scored) :=
  match names with
  | [] => scores
  | name :: names' =>
      match assessment_data !! name with
      | Some s =>
          score_loop level_of names' assessment_data
            (dict_set scores name {| score := Num s; level := level_of (Num s) |})
      | None => score_loop level_of names' assessment_data scores
      end
  end.

Definition with_overall (level_of : number -> string)
    (scores : list (string * scored)) : list (string * scored) :=
  let avg_score := np_mean (map (fun kv => score kv.2) scores) in
  dict_set scores "overall" {| score := avg_score; level := level_of avg_score |}.

Definition calculate_nasss_scores (assessment_data : gmap string Q)
  : list (string * scored) :=
  with_overall get_nasss_complexity_level
    (score_loop get_nasss_complexity_level nasss_domains assessment_data []).

Definition calculate_reaim_scores (assessment_data : gmap string Q)
  : list (string * scored) :=
  with_overall get_reaim_readiness_level
    (score_loop get_reaim_readiness_level reaim_dimensions assessment_data []).

Definition make_readiness_decision
    (nasss_analysis reaim_analysis : list (string * scored)) : result string :=
  n ← dict_item nasss_analysis "overall";
  r ← dict_item reaim_analysis "overall";
  let nasss_score := score n in
  let reaim_score := score r in
  Ok (if num_le nasss_score (Num 3) && num_ge reaim_score (Num 6)
      then "Ready for pilot implementation"
      else if num_le nasss_score (Num 4) && num_ge reaim_score (Num 4)
      then "Ready with modifications"
      else "Requires significant development before implementation").

(** The ['readiness_decision'] entry of [generate_framework_report] for two
    raw assessments. *)
Definition readiness_decision (nasss_data reaim_data : gmap string Q)
  : result string :=
  make_readiness_decision (calculate_nasss_scores nasss_data)
                          (calculate_reaim_scores reaim_data).

(** *** Recommendations and the framework report *)

(** One of the two loops of [generate_implementation_recommendations]:
    every entry other than ['overall'] whose score is flagged appends one
    message. *)
Fixpoint recommend_loop (flagged : number -> bool) (message : string -> string)
    (analysis : list (string * scored)) (recommendations : list string)
  : list string :=
  match analysis with
  | [] => recommendations
  | (name, scores) :: analysis' =>
      recommend_loop flagged message analysis'
        (if negb (String.eqb name "overall") && flagged (score scores)
         then (recommendations ++ [message name])%list
         else recommendations)
  end.

Definition nasss_message (domain : string) : string :=
  "Address high complexity in " +:+ domain
  +:+ ": requires significant attention before deployment".

Definition reaim_message (dimension : string) : string :=
  "Improve " +:+ dimension +:+ " dimension: score below implementation threshold".

Definition generate_implementation_recommendations
    (nasss_analysis reaim_analysis : list (string * scored)) : list string :=
  let recommendations :=
    recommend_loop (fun s => num_ge s (Num 4)) nasss_message nasss_analysis [] in
  recommend_loop (fun s => num_le s (Num 4)) reaim_message reaim_analysis
    recommendations.

Record framework_report : Type := {
  assessment_date : string;
  nasss_assessment : list (string * scored);
  reaim_assessment : list (string * scored);
  implementation_recommendations : list string;
  report_readiness_decision : string
}.

(** [now] stands for [datetime.now().isoformat()]. *)
Definition generate_framework_report (now : string)
    (nasss_data reaim_data : gmap string Q) : result framework_report :=
  let nasss_analysis := calculate_nasss_scores nasss_data in
  let reaim_analysis := calculate_reaim_scores reaim_data in
  let recommendations :=
    generate_implementation_recommendations nasss_analysis reaim_analysis in
  decision ← make_readiness_decision nasss_analysis reaim_analysis;
  Ok {| assessment_date := now;
        nasss_assessment := nasss_analysis;
        reaim_assessment := reaim_analysis;
        implementation_recommendations := recommendations;
        report_readiness_decision := decision |}.

End FrameworkAssessmentAnalyzer.

(** ** 5. ATLASIntegratedAnalyzer *)

Module ATLASIntegratedAnalyzer.

(** The [all_data] dict: each of its five keys may be missing. *)
Record all_data : Type := {
  performance_metrics : option (gmap string Q);
  clinical_results : option ClinicalScenarioAnalyzer.results_frame;
  expert_responses : option ExpertEvaluationAnalyzer.DataFrame;
  nasss_data : option (gmap string Q);
  reaim_data : option (gmap string Q)
}.

Record evaluation_summary : Type := {
  evaluation_date : string;
  summary_app_url : string;
  evaluation_components : list string
}.

Record conclusions : Type := {
  overall_assessment : string;
  key_achievements : list string;
  primary_limitations : list string;
  readiness_indicators : list (string * string);
  future_priorities : list string
}.

(** The report before [integrated_conclusions] is added. *)
Record sections : Type := {
  summary : evaluation_summary;
  technical_performance : ATLASPerformanceAnalyzer.report;
  clinical_validation : list (string * ClinicalScenarioAnalyzer.alignment);
  expert_evaluation : ExpertEvaluationAnalyzer.analysis;
  framework_assessment : FrameworkAssessmentAnalyzer.framework_report
}.

Record comprehensive_report : Type := {
  report_sections : sections;
  integrated_conclusions : conclusions
}.

Definition technical_achievement : string :=
  "Strong technical performance across PWA metrics".

Definition usability_achievement : string :=
  "Above-average usability scores from expert evaluation".

Definition draw_integrated_conclusions (report_data : sections) : conclusions :=
  let achievements :=
    if ge (ATLASPerformanceAnalyzer.overall_score
             (ATLASPerformanceAnalyzer.report_summary
                (technical_performance report_data))) 75
    then [technical_achievement] else [] in
  let achievements :=
    if num_ge (ExpertEvaluationAnalyzer.mean_sus
                 (ExpertEvaluationAnalyzer.a_sus_analysis
                    (expert_evaluation report_data))) (Num 70)
    then (achievements ++ [usability_achievement])%list else achievements in
  {| overall_assessment := "";
     key_achievements := achievements;
     primary_limitations := [];
     readiness_indicators :=
       [("framework_decision",
         FrameworkAssessmentAnalyzer.report_readiness_decision
           (framework_assessment report_data))];
     future_priorities := [] |}.

(** [url] is the analyzer's [app_url]; [clock k] is the time read by the
    [k]-th call of [datetime.now]; [sqrt] is the square root of floats. *)
Definition generate_comprehensive_report (url : string) (clock : nat -> string)
    (sqrt : Q -> Q) (data : all_data) : result comprehensive_report :=
  let head :=
    {| evaluation_date := clock 0%nat;
       summary_app_url := url;
       evaluation_components :=
         [ "Technical Performance"; "Clinical Validation";
           "Expert Evaluation"; "Framework Assessment" ] |} in
  tech ← ATLASPerformanceAnalyzer.generate_performance_report url (clock 1%nat)
           (default ∅ (performance_metrics data));
  clin ← ClinicalScenarioAnalyzer.analyze_who_alignment
           (default ClinicalScenarioAnalyzer.NoColumns (clinical_results data));
  expert ← ExpertEvaluationAnalyzer.analyze_expert_responses sqrt
             (default {| ExpertEvaluationAnalyzer.index_len := 0;
                         ExpertEvaluationAnalyzer.columns := [] |}
                      (expert_responses data));
  fw ← FrameworkAssessmentAnalyzer.generate_framework_report (clock 2%nat)
         (default ∅ (nasss_data data)) (default ∅ (reaim_data data));
  let report :=
    {| summary := head;
       technical_performance := tech;
       clinical_validation := clin;
       expert_evaluation := expert;
       framework_assessment := fw |} in
  Ok {| report_sections := report;
        integrated_conclusions := draw_integrated_conclusions report |}.

End ATLASIntegratedAnalyzer.

(** * Vocabulary of the specification *)

(** The entries of an assessment that carry a name of the vocabulary, in
    vocabulary order. *)
Definition present (names : list string) (data : gmap string Q) : list (string * Q) :=
  omap (fun name => (fun s => (name, s)) <$> data !! name) names.

(** The unweighted arithmetic mean. *)
Definition mean (qs : list Q) : Q := (total qs / of_int (length qs))%Q.

(** The scored entry of a raw score. *)
Definition entry (level_of : number -> string) (s : Q)
  : FrameworkAssessmentAnalyzer.scored :=
  {| FrameworkAssessmentAnalyzer.score := Num s;
     FrameworkAssessmentAnalyzer.level := level_of (Num s) |}.

(** What the specification says of a scorer [calc] over the vocabulary
    [names]. *)
Definition scores_present_entries (level_of : number -> string)
    (calc : gmap string Q -> list (string * FrameworkAssessmentAnalyzer.scored))
    (names : list string) : Prop :=
  forall data : gmap string Q,
    let pres := present names data in
    (map fst (calc data) = map fst pres ++ ["overall"])%list
    /\ (forall name, name <> "overall" ->
         dict_get (calc data) name
         = if decide (name ∈ names) then entry level_of <$> data !! name else None)
    /\ (pres <> [] ->
         dict_get (calc data) "overall"
         = Some {| FrameworkAssessmentAnalyzer.score := Num (mean (map snd pres));
                   FrameworkAssessmentAnalyzer.level := level_of (Num (mean (map snd pres))) |})
    /\ (forall k v name, name <> k -> name <> "overall" ->
         dict_get (calc (<[k:=v]> data)) name = dict_get (calc data) name)
    /\ (forall k name, name <> k -> name <> "overall" ->
         dict_get (calc (delete k data)) name = dict_get (calc data) name).

(** What [compare] stores for a non-zero target. *)
Definition compared (metric : string) (target actual : Q)
  : ATLASPerformanceAnalyzer.comparison :=
  {| ATLASPerformanceAnalyzer.actual := actual;
     ATLASPerformanceAnalyzer.target := target;
     ATLASPerformanceAnalyzer.meets_target :=
       if ATLASPerformanceAnalyzer.higher_is_better metric
       then ge actual target else le actual target;
     ATLASPerformanceAnalyzer.variance_percent :=
       ((actual - target) / target * 100)%Q |}.

(** The metrics of the input that carry a name of the target table, in
    table order, each compared with its target. *)
Definition recognized (items : list (string * Q)) (data : gmap string Q)
  : list (string * ATLASPerformanceAnalyzer.comparison) :=
  omap (fun it => (fun a => (it.1, compared it.1 it.2 a)) <$> data !! it.1) items.

(** A comment is tagged with a theme when it is a non-empty string whose
    lower case contains one of the theme's keywords. *)
Definition tagged (keywords : list string) (c : ExpertEvaluationAnalyzer.comment) : bool :=
  match c with
  | ExpertEvaluationAnalyzer.Text (String a s) =>
      existsb (fun keyword =>
                 ExpertEvaluationAnalyzer.contains keyword
                   (ExpertEvaluationAnalyzer.lower (String a s)))
              keywords
  | _ => false
  end.

(** The value of the audit [id] in the Lighthouse data, when the data has
    the audits, the audit and its value. *)
Definition audit_value (lighthouse_data : ATLASPerformanceAnalyzer.lighthouse)
    (id : string) : option ATLASPerformanceAnalyzer.jvalue :=
  au ← ATLASPerformanceAnalyzer.audits lighthouse_data;
  o ← au !! id;
  o !! "numericValue".

(** The alignment statistics of the rows of one category, as
    [analyze_who_alignment] stores them when there is at least one row. *)
Definition alignment_of (category_data : list ClinicalScenarioAnalyzer.result_row)
  : ClinicalScenarioAnalyzer.alignment :=
  let n := length category_data in
  let count col := ClinicalScenarioAnalyzer.count_true col category_data in
  let percent col := (of_int (count col) / of_int n * 100)%Q in
  {| ClinicalScenarioAnalyzer.total_cases := n;
     ClinicalScenarioAnalyzer.who_aligned_cases :=
       count ClinicalScenarioAnalyzer.row_who_aligned;
     ClinicalScenarioAnalyzer.alignment_percentage :=
       percent ClinicalScenarioAnalyzer.row_who_aligned;
     ClinicalScenarioAnalyzer.appropriate_recommendations :=
       count ClinicalScenarioAnalyzer.row_appropriate_recommendation;
     ClinicalScenarioAnalyzer.appropriateness_percentage :=
       percent ClinicalScenarioAnalyzer.row_appropriate_recommendation;
     ClinicalScenarioAnalyzer.resource_aware_cases :=
       count ClinicalScenarioAnalyzer.row_resource_aware;
     ClinicalScenarioAnalyzer.resource_awareness_percentage :=
       percent ClinicalScenarioAnalyzer.row_resource_aware |}.

(** The rows of a category. *)
Definition rows_of (category : string) (rows : list ClinicalScenarioAnalyzer.result_row)
  : list ClinicalScenarioAnalyzer.result_row :=
  filter (fun r => ClinicalScenarioAnalyzer.row_category r = category) rows.

(** The scenario built for the [i]-th pass of the inner loop of
    [create_synthetic_scenarios], with id [sid], from the template [t]. *)
Definition scenario_of (rng : nat -> nat) (clock : nat -> string)
    (category : string) (t : ClinicalScenarioAnalyzer.template) (sid : nat)
  : ClinicalScenarioAnalyzer.scenario :=
  {| ClinicalScenarioAnalyzer.id := sid;
     ClinicalScenarioAnalyzer.category := category;
     ClinicalScenarioAnalyzer.patient_age := ClinicalScenarioAnalyzer.age t;
     ClinicalScenarioAnalyzer.scenario_symptoms := ClinicalScenarioAnalyzer.symptoms t;
     ClinicalScenarioAnalyzer.expected_protocol := ClinicalScenarioAnalyzer.expected t;
     ClinicalScenarioAnalyzer.resource_level :=
       nth (rng (sid - 1) mod length ClinicalScenarioAnalyzer.resource_levels)
           ClinicalScenarioAnalyzer.resource_levels "basic";
     ClinicalScenarioAnalyzer.created_at := clock (sid - 1) |}.

(** The scenarios of one category: [count] of them, cycling through the
    templates, with ids from [sid] on. *)
Definition block (rng : nat -> nat) (clock : nat -> string)
    (category : string) (templates : list ClinicalScenarioAnalyzer.template)
    (t0 : ClinicalScenarioAnalyzer.template) (count sid : nat)
  : list ClinicalScenarioAnalyzer.scenario :=
  map (fun j => scenario_of rng clock category
                  (nth (j mod length templates) templates t0) (sid + j))
      (seq 0 count).

(** The example kept for a comment: its first 100 characters and an
    ellipsis. *)
Definition example_of (comment : string) : string :=
  String.substring 0 100 comment +:+ "...".

(** The texts of the comments tagged with a theme, in encounter order. *)
Definition tagged_texts (keywords : list string)
    (comments : list ExpertEvaluationAnalyzer.comment) : list string :=
  omap (fun c => match c with
                 | ExpertEvaluationAnalyzer.Text s =>
                     if tagged keywords c then Some s else None
                 | ExpertEvaluationAnalyzer.Other => None
                 end) comments.

(** A comment the tagger reads: a non-empty string. *)
Definition is_text (c : ExpertEvaluationAnalyzer.comment) : bool :=
  match c with
  | ExpertEvaluationAnalyzer.Text (String _ _) => true
  | _ => false
  end.

(** A frame is rectangular: every column has one cell per row. *)
Definition well_formed (df : ExpertEvaluationAnalyzer.DataFrame) : Prop :=
  Forall (fun col => length col.2 = ExpertEvaluationAnalyzer.index_len df)
         (ExpertEvaluationAnalyzer.columns df).

(** A column without a string cell. *)
Definition no_text (s : list ExpertEvaluationAnalyzer.value) : bool :=
  forallb (fun v => match v with
                    | ExpertEvaluationAnalyzer.Str _ => false
                    | _ => true
                    end) s.

(** The rank of a readiness decision: 2 for ready, 1 for ready with
    modifications, 0 for any other text. *)
Definition rank (decision : string) : nat :=
  if String.eqb decision "Ready for pilot implementation" then 2
  else if String.eqb decision "Ready with modifications" then 1
  else 0.

(** A name of an assessment is flagged when it is present with a score
    that passes the test. *)
Definition flagged_in (test : Q -> bool) (data : gmap string Q) (name : string) : bool :=
  match data !! name with
  | Some s => test s
  | None => false
  end.

(** * Properties of the embedding *)

(** ** Arithmetic *)

Section Arithmetic.

Lemma of_int_zero_iff (n : nat) : (of_int n == 0)%Q <-> n = 0%nat.
Proof.
  unfold of_int, Qeq; simpl. lia.
Qed.

Lemma of_int_pos (n : nat) : (0 < n)%nat -> (0 < of_int n)%Q.
Proof.
  intros H. unfold of_int, Qlt; simpl. lia.
Qed.

Lemma truediv_nonzero (a b : Q) : ~ (b == 0)%Q -> truediv a b = Ok (a / b)%Q.
Proof.
  intros H. unfold truediv.
  destruct (Qeq_bool b 0) eqn:E; [| reflexivity].
  apply Qeq_bool_iff in E. contradiction.
Qed.

Lemma truediv_by_zero (a b : Q) : (b == 0)%Q -> truediv a b = Raise ZeroDivisionError.
Proof.
  intros H. unfold truediv. apply Qeq_bool_iff in H. now rewrite H.
Qed.

Lemma truediv_of_int (a : Q) (n : nat) :
  (0 < n)%nat -> truediv a (of_int n) = Ok (a / of_int n)%Q.
Proof.
  intros H. apply truediv_nonzero. rewrite of_int_zero_iff. lia.
Qed.

Lemma Qdiv_pos (a b : Q) : (0 < a)%Q -> (0 < b)%Q -> (0 < a / b)%Q.
Proof.
  intros Ha Hb. apply Qlt_shift_div_l; [assumption |]. now rewrite Qmult_0_l.
Qed.

Lemma num_le_spec (a b : number) : num_le a b = true <-> num_leP a b.
Proof.
  destruct a, b; simpl; try (split; [discriminate | tauto]).
  apply Qle_bool_iff.
Qed.

Lemma num_le_false (a b : number) : num_le a b = false <-> ~ num_leP a b.
Proof.
  rewrite <- num_le_spec. destruct (num_le a b); split; congruence.
Qed.

End Arithmetic.

Section Clinical.

Import ClinicalScenarioAnalyzer.

Lemma f1_score_without_tp (fp fn : nat) : f1_score_of 0 fp fn = Ok 0%Q.
Proof. reflexivity. Qed.

Lemma f1_score_with_tp (tp fp fn : nat) :
  (0 < tp)%nat ->
  let p := (of_int tp / of_int (tp + fp))%Q in
  let r := (of_int tp / of_int (tp + fn))%Q in
  f1_score_of tp fp fn = Ok (2 * (p * r) / (p + r))%Q.
Proof.
  intros Htp p r. unfold f1_score_of.
  assert (Hlt : (0 <? tp)%nat = true) by (apply Nat.ltb_lt; lia).
  rewrite Hlt.
  rewrite !truediv_of_int by lia. cbn [mbind result_bind].
  apply truediv_nonzero.
  assert (0 < p)%Q by (apply Qdiv_pos; apply of_int_pos; lia).
  assert (0 < r)%Q by (apply Qdiv_pos; apply of_int_pos; lia).
  fold p r. lra.
Qed.

Lemma accuracy_total (tp fp tn fn : nat) :
  (0 < tp + fp + tn + fn)%nat ->
  accuracy_of tp fp tn fn = Ok (of_int (tp + tn) / of_int (tp + fp + tn + fn))%Q.
Proof. intros H. unfold accuracy_of. now apply truediv_of_int. Qed.

Lemma guarded_ratio (a n : nat) :
  (if (0 <? n)%nat then truediv (of_int a) (of_int n) else Ok 0%Q)
  = Ok (if (0 <? n)%nat then (of_int a / of_int n)%Q else 0%Q).
Proof.
  destruct (0 <? n)%nat eqn:E; [| reflexivity].
  apply truediv_of_int. now apply Nat.ltb_lt.
Qed.

Lemma metrics_total (tp fp tn fn : nat) :
  (0 < tp + fp + tn + fn)%nat ->
  exists m, metrics_of_counts tp fp tn fn = Ok m
    /\ accuracy_of tp fp tn fn = Ok (accuracy m)
    /\ precision_of tp fp = Ok (precision m)
    /\ recall_of tp fn = Ok (recall m)
    /\ specificity_of tn fp = Ok (specificity m)
    /\ f1_score_of tp fp fn = Ok (f1_score m).
Proof.
  intros H. unfold metrics_of_counts.
  rewrite (accuracy_total _ _ _ _ H).
  unfold precision_of, recall_of, specificity_of. rewrite !guarded_ratio.
  destruct tp as [| tp'].
  - rewrite f1_score_without_tp. cbn [mbind result_bind]. eexists. repeat split.
  - rewrite f1_score_with_tp by lia. cbn [mbind result_bind]. eexists. repeat split.
Qed.

Lemma cells_partition (results_df : list outcome) :
  (cell true true results_df + cell true false results_df
   + cell false false results_df + cell false true results_df)%nat
  = length results_df.
Proof.
  unfold cell. induction results_df as [| [[] []] l IH]; [reflexivity | ..];
    rewrite !filter_cons; simpl;
    repeat (case_decide; try (exfalso; intuition congruence)); simpl in *; lia.
Qed.

Lemma metrics_undefined (tp fp tn fn : nat) :
  (tp + fp + tn + fn = 0)%nat ->
  accuracy_of tp fp tn fn = Raise ZeroDivisionError
  /\ metrics_of_counts tp fp tn fn = Raise ZeroDivisionError.
Proof.
  intros H. assert (E : accuracy_of tp fp tn fn = Raise ZeroDivisionError).
  { unfold accuracy_of. apply truediv_by_zero. now apply of_int_zero_iff. }
  split; [exact E |]. unfold metrics_of_counts. now rewrite E.
Qed.

(** C1: the F1 entry is 0 whenever TP = 0, whatever FP, TN and FN are, and
    for TP > 0 it is 2*precision*recall/(precision+recall) with
    precision = TP/(TP+FP) and recall = TP/(TP+FN); the metrics returned by
    [calculate_clinical_metrics] carry exactly this entry, and metrics are
    returned for every non-empty confusion matrix. *)
Theorem f1_score_policy (tp fp tn fn : nat) :
  let p := (of_int tp / of_int (tp + fp))%Q in
  let r := (of_int tp / of_int (tp + fn))%Q in
  (tp = 0%nat -> f1_score_of tp fp fn = Ok 0%Q)
  /\ ((0 < tp)%nat ->
      exists f, f1_score_of tp fp fn = Ok f /\ (f == 2 * p * r / (p + r))%Q)
  /\ (forall m, metrics_of_counts tp fp tn fn = Ok m ->
      f1_score_of tp fp fn = Ok (f1_score m))
  /\ ((0 < tp + fp + tn + fn)%nat -> exists m, metrics_of_counts tp fp tn fn = Ok m)
  /\ (forall results_df,
      calculate_clinical_metrics results_df
      = metrics_of_counts (cell true true results_df) (cell true false results_df)
          (cell false false results_df) (cell false true results_df)).
Proof.
  intros p r. repeat split.
  - intros ->. apply f1_score_without_tp.
  - intros Htp. eexists. split; [now apply f1_score_with_tp |].
    fold p r. now rewrite Qmult_assoc.
  - intros m Hm.
    destruct (Nat.eq_dec (tp + fp + tn + fn) 0) as [Hz | Hnz].
    + destruct (metrics_undefined _ _ _ _ Hz) as [_ E]. congruence.
    + destruct (metrics_total tp fp tn fn) as (m' & Hm' & _ & _ & _ & _ & Hf); [lia |].
      congruence.
  - intros Hpos. destruct (metrics_total tp fp tn fn Hpos) as (m & Hm & _). eauto.
Qed.

Lemma f1_score_policy_witness :
  f1_score_of 0 2 1 = Ok 0%Q
  /\ (exists f, f1_score_of 3 1 3 = Ok f
       /\ (f == 2 * (3 # 4) * (1 # 2) / ((3 # 4) + (1 # 2)))%Q)
  /\ (exists m, metrics_of_counts 0 2 5 1 = Ok m).
Proof.
  destruct (f1_score_policy 0 2 5 1) as (Z & _ & _ & T & _).
  destruct (f1_score_policy 3 1 2 3) as (_ & H & _).
  split; [apply Z; reflexivity |].
  split; [| apply T; simpl; lia].
  destruct H as (f & Hf & Heq); [lia |]. exists f. split; [exact Hf |].
  rewrite Heq. reflexivity.
Defined.

(** C2: precision, recall and specificity are 0 when their denominators
    TP+FP, TP+FN and TN+FP are 0, and the plain ratios otherwise; accuracy
    is (TP+TN)/total, and with total = 0 its division raises
    [ZeroDivisionError], so that no metrics (and no default) are returned. *)
Theorem zero_denominator_policy (tp fp tn fn : nat) :
  ((tp + fp = 0)%nat -> precision_of tp fp = Ok 0%Q)
  /\ ((0 < tp + fp)%nat -> precision_of tp fp = Ok (of_int tp / of_int (tp + fp))%Q)
  /\ ((tp + fn = 0)%nat -> recall_of tp fn = Ok 0%Q)
  /\ ((0 < tp + fn)%nat -> recall_of tp fn = Ok (of_int tp / of_int (tp + fn))%Q)
  /\ ((tn + fp = 0)%nat -> specificity_of tn fp = Ok 0%Q)
  /\ ((0 < tn + fp)%nat -> specificity_of tn fp = Ok (of_int tn / of_int (tn + fp))%Q)
  /\ ((0 < tp + fp + tn + fn)%nat ->
      accuracy_of tp fp tn fn = Ok (of_int (tp + tn) / of_int (tp + fp + tn + fn))%Q
      /\ exists m, metrics_of_counts tp fp tn fn = Ok m
           /\ accuracy_of tp fp tn fn = Ok (accuracy m)
           /\ precision_of tp fp = Ok (precision m)
           /\ recall_of tp fn = Ok (recall m)
           /\ specificity_of tn fp = Ok (specificity m))
  /\ ((tp + fp + tn + fn = 0)%nat ->
      accuracy_of tp fp tn fn = Raise ZeroDivisionError
      /\ metrics_of_counts tp fp tn fn = Raise ZeroDivisionError)
  /\ calculate_clinical_metrics [] = Raise ZeroDivisionError
  /\ (forall results_df,
      calculate_clinical_metrics results_df
      = metrics_of_counts (cell true true results_df) (cell true false results_df)
          (cell false false results_df) (cell false true results_df)
      /\ (cell true true results_df + cell true false results_df
          + cell false false results_df + cell false true results_df)%nat
         = length results_df).
Proof.
  unfold precision_of, recall_of, specificity_of. rewrite !guarded_ratio.
  repeat split.
  - intros ->. reflexivity.
  - intros H. apply Nat.ltb_lt in H. now rewrite H.
  - intros ->. reflexivity.
  - intros H. apply Nat.ltb_lt in H. now rewrite H.
  - intros ->. reflexivity.
  - intros H. apply Nat.ltb_lt in H. now rewrite H.
  - now apply accuracy_total.
  - destruct (metrics_total tp fp tn fn) as (m & Hm & Ha & Hp & Hr & Hs & _);
      [assumption |].
    unfold precision_of, recall_of, specificity_of in Hp, Hr, Hs.
    rewrite guarded_ratio in Hp, Hr, Hs.
    exists m. repeat split; assumption.
  - now apply metrics_undefined.
  - now apply metrics_undefined.
  - apply cells_partition.
Qed.

Lemma zero_denominator_policy_witness :
  precision_of 0 0 = Ok 0%Q
  /\ recall_of 2 1 = Ok (of_int 2 / of_int 3)%Q
  /\ specificity_of 0 0 = Ok 0%Q
  /\ accuracy_of 2 0 0 1 = Ok (of_int 2 / of_int 3)%Q
  /\ metrics_of_counts 0 0 0 0 = Raise ZeroDivisionError.
Proof.
  destruct (zero_denominator_policy 0 0 0 0) as (P0 & _ & _ & _ & _ & _ & _ & U & _).
  destruct (zero_denominator_policy 2 0 0 1) as (_ & _ & _ & R & S0 & _ & A & _).
  split; [apply P0; reflexivity |].
  split; [apply R; simpl; lia |].
  split; [apply S0; reflexivity |].
  split; [apply A; simpl; lia |].
  apply U. reflexivity.
Defined.

End Clinical.

(** ** Dicts *)

Local Open Scope list_scope.

Section Dicts.

Context {V : Type}.
Implicit Types (d : list (string * V)) (k : string) (v : V).

Lemma dict_get_set_eq d k v : dict_get (dict_set d k v) k = Some v.
Proof.
  induction d as [| [k' v'] d IH]; simpl.
  - now rewrite String.eqb_refl.
  - destruct (String.eqb k' k) eqn:E; simpl; now rewrite E.
Qed.

Lemma dict_get_set_ne d k k' v : k <> k' -> dict_get (dict_set d k v) k' = dict_get d k'.
Proof.
  intros Hne. induction d as [| [k0 v0] d IH]; simpl.
  - apply String.eqb_neq in Hne. now rewrite Hne.
  - destruct (String.eqb k0 k) eqn:E; simpl.
    + apply String.eqb_eq in E. subst k0.
      apply String.eqb_neq in Hne. now rewrite Hne.
    + now rewrite IH.
Qed.

Lemma dict_set_fresh d k v : dict_get d k = None -> dict_set d k v = d ++ [(k, v)].
Proof.
  induction d as [| [k' v'] d IH]; simpl; [reflexivity |].
  destruct (String.eqb k' k); [discriminate |].
  intros H. now rewrite IH.
Qed.

Lemma dict_get_app d1 d2 k :
  dict_get (d1 ++ d2) k
  = match dict_get d1 k with Some v => Some v | None => dict_get d2 k end.
Proof.
  induction d1 as [| [k' v'] d1 IH]; simpl; [reflexivity |].
  now destruct (String.eqb k' k).
Qed.

End Dicts.

(** ** The framework scorers *)

Section Framework.

Import FrameworkAssessmentAnalyzer.

Variable level_of : number -> string.

Lemma present_cons (a : string) (names : list string) (data : gmap string Q) :
  present (a :: names) data
  = match data !! a with
    | Some s => (a, s) :: present names data
    | None => present names data
    end.
Proof. unfold present. simpl. now destruct (data !! a). Qed.

Lemma present_nil (names : list string) (data : gmap string Q) :
  (forall name, name ∈ names -> data !! name = None) -> present names data = [].
Proof.
  induction names as [| a names IH]; intros H; [reflexivity |].
  rewrite present_cons, (H a) by left.
  apply IH. intros name Hin. apply H. now right.
Qed.

Lemma present_get (names : list string) (data : gmap string Q) (name : string) :
  dict_get (present names data) name
  = if decide (name ∈ names) then data !! name else None.
Proof.
  induction names as [| a names IH].
  - rewrite decide_False by apply not_elem_of_nil. reflexivity.
  - rewrite present_cons.
    destruct (decide (a = name)) as [-> | Hne].
    + rewrite decide_True by left.
      destruct (data !! name) as [s |] eqn:E; simpl.
      * now rewrite String.eqb_refl.
      * rewrite IH. now case_decide.
    + assert (Hd : (if decide (name ∈ a :: names) then data !! name else None)
                   = if decide (name ∈ names) then data !! name else None).
      { destruct (decide (name ∈ names)) as [Hin | Hnin].
        - now rewrite decide_True by (now right).
        - rewrite decide_False; [reflexivity |].
          intros [-> | H]%elem_of_cons; [now apply Hne | now apply Hnin]. }
      rewrite Hd, <- IH.
      destruct (data !! a) as [s |] eqn:E; simpl; [| reflexivity].
      apply String.eqb_neq in Hne. now rewrite Hne.
Qed.

Lemma scored_get (l : list (string * Q)) (name : string) :
  dict_get (map (fun kv => (kv.1, entry level_of kv.2)) l) name
  = entry level_of <$> dict_get l name.
Proof.
  induction l as [| [k s] l IH]; simpl; [reflexivity |].
  now destruct (String.eqb k name).
Qed.

Lemma score_loop_present (names : list string) (data : gmap string Q)
    (scores : list (string * scored)) :
  NoDup names ->
  (forall name, name ∈ names -> dict_get scores name = None) ->
  score_loop level_of names data scores
  = scores ++ map (fun kv => (kv.1, entry level_of kv.2)) (present names data).
Proof.
  revert scores. induction names as [| a names IH]; intros scores Hnd Hfresh.
  - simpl. now rewrite app_nil_r.
  - apply NoDup_cons in Hnd as [Ha Hnd]. rewrite present_cons. simpl.
    destruct (data !! a) as [s |] eqn:E; simpl.
    + rewrite dict_set_fresh by (apply Hfresh; left).
      rewrite IH; [now rewrite <- app_assoc | assumption |].
      intros name Hin. rewrite dict_get_app, Hfresh by now right. simpl.
      destruct (String.eqb a name) eqn:Eb; [| reflexivity].
      apply String.eqb_eq in Eb. subst. contradiction.
    + apply IH; [assumption |]. intros name Hin. apply Hfresh. now right.
Qed.

Lemma np_mean_finite (qs : list Q) :
  qs <> [] -> np_mean (map Num qs) = Num (mean qs).
Proof.
  intros Hne. unfold np_mean, mean.
  assert (Hsum : foldr num_add (Num 0) (map Num qs) = Num (total qs)).
  { clear Hne. induction qs as [| q qs IH]; simpl; [reflexivity |]. now rewrite IH. }
  rewrite Hsum, length_map. simpl.
  destruct (Qeq_bool (of_int (length qs)) 0) eqn:E; [| reflexivity].
  apply Qeq_bool_iff, of_int_zero_iff in E. destruct qs; [congruence | discriminate].
Qed.

(** The shape of a scorer's result: the present entries in vocabulary
    order, then ['overall']. *)
Lemma with_overall_present (names : list string) (data : gmap string Q) :
  NoDup names -> "overall" ∉ names ->
  let pres := present names data in
  let avg := np_mean (map (fun kv => Num kv.2) pres) in
  with_overall level_of (score_loop level_of names data [])
  = map (fun kv => (kv.1, entry level_of kv.2)) pres
    ++ [("overall", {| score := avg; level := level_of avg |})].
Proof.
  intros Hnd Hov pres avg.
  rewrite score_loop_present by (assumption || reflexivity). simpl. fold pres.
  unfold with_overall. rewrite map_map. simpl. fold avg.
  apply dict_set_fresh. rewrite scored_get. unfold pres. rewrite present_get.
  now rewrite decide_False.
Qed.

Lemma scorer_get (names : list string) (data : gmap string Q) (name : string) :
  NoDup names -> "overall" ∉ names -> name <> "overall" ->
  dict_get (with_overall level_of (score_loop level_of names data [])) name
  = if decide (name ∈ names) then entry level_of <$> data !! name else None.
Proof.
  intros Hnd Hov Hname. rewrite with_overall_present by assumption.
  rewrite dict_get_app, scored_get, present_get. cbn [dict_get].
  assert (Hb : String.eqb "overall" name = false)
    by (apply String.eqb_neq; congruence).
  rewrite Hb. case_decide; [| reflexivity]. now destruct (data !! name).
Qed.

Lemma scorer_overall (names : list string) (data : gmap string Q) :
  dict_get (with_overall level_of (score_loop level_of names data [])) "overall"
  = Some (let avg := np_mean (map (fun kv => score kv.2)
                                  (score_loop level_of names data [])) in
          {| score := avg; level := level_of avg |}).
Proof. unfold with_overall. apply dict_get_set_eq. Qed.

Lemma score_loop_absent (names : list string) (data : gmap string Q)
    (scores : list (string * scored)) :
  (forall name, name ∈ names -> data !! name = None) ->
  score_loop level_of names data scores = scores.
Proof.
  induction names as [| a names IH]; intros H; [reflexivity |].
  simpl. rewrite (H a) by left. apply IH. intros name Hin. apply H. now right.
Qed.

Lemma scorer_scores_present_entries (names : list string) :
  NoDup names -> "overall" ∉ names ->
  scores_present_entries level_of
    (fun data => with_overall level_of (score_loop level_of names data [])) names.
Proof.
  intros Hnd Hov data pres. repeat split.
  - rewrite with_overall_present by assumption. fold pres.
    rewrite map_app, map_map. reflexivity.
  - intros name Hname. now apply scorer_get.
  - intros Hne. rewrite with_overall_present by assumption. fold pres.
    rewrite dict_get_app, scored_get. unfold pres at 1. rewrite present_get.
    rewrite decide_False by assumption. simpl.
    replace (map (fun kv : string * Q => Num kv.2) pres) with (map Num (map snd pres))
      by (now rewrite map_map).
    rewrite np_mean_finite; [reflexivity |]. now destruct pres.
  - intros k v name Hk Hname. rewrite !scorer_get by assumption.
    now rewrite lookup_insert_ne by congruence.
  - intros k name Hk Hname. rewrite !scorer_get by assumption.
    now rewrite lookup_delete_ne by congruence.
Qed.

End Framework.

Section FrameworkClaims.

Import FrameworkAssessmentAnalyzer.

Lemma nasss_domains_nodup : NoDup nasss_domains /\ "overall" ∉ nasss_domains.
Proof.
  split; compute_done.
Qed.

Lemma reaim_dimensions_nodup : NoDup reaim_dimensions /\ "overall" ∉ reaim_dimensions.
Proof.
  split; compute_done.
Qed.

(** C4: for every assessment, the result of either scorer lists the
    entries whose names are in the vocabulary and present in the input, in
    vocabulary order, followed by ['overall']; when at least one entry is
    present the overall score is the unweighted arithmetic mean of exactly
    the present scores (absent names are in neither the output nor the
    mean); and inserting or deleting any other key of the input leaves the
    entry of a name unchanged. *)
Theorem overall_is_mean_of_present (data : gmap string Q) :
  (let pres := present nasss_domains data in
   map fst (calculate_nasss_scores data) = map fst pres ++ ["overall"]
   /\ (forall name, name <> "overall" ->
        dict_get (calculate_nasss_scores data) name
        = if decide (name ∈ nasss_domains)
          then entry get_nasss_complexity_level <$> data !! name else None)
   /\ (pres <> [] ->
        dict_get (calculate_nasss_scores data) "overall"
        = Some {| score := Num (mean (map snd pres));
                  level := get_nasss_complexity_level (Num (mean (map snd pres))) |})
   /\ (forall k v name, name <> k -> name <> "overall" ->
        dict_get (calculate_nasss_scores (<[k:=v]> data)) name
        = dict_get (calculate_nasss_scores data) name)
   /\ (forall k name, name <> k -> name <> "overall" ->
        dict_get (calculate_nasss_scores (delete k data)) name
        = dict_get (calculate_nasss_scores data) name))
  /\
  (let pres := present reaim_dimensions data in
   map fst (calculate_reaim_scores data) = map fst pres ++ ["overall"]
   /\ (forall name, name <> "overall" ->
        dict_get (calculate_reaim_scores data) name
        = if decide (name ∈ reaim_dimensions)
          then entry get_reaim_readiness_level <$> data !! name else None)
   /\ (pres <> [] ->
        dict_get (calculate_reaim_scores data) "overall"
        = Some {| score := Num (mean (map snd pres));
                  level := get_reaim_readiness_level (Num (mean (map snd pres))) |})
   /\ (forall k v name, name <> k -> name <> "overall" ->
        dict_get (calculate_reaim_scores (<[k:=v]> data)) name
        = dict_get (calculate_reaim_scores data) name)
   /\ (forall k name, name <> k -> name <> "overall" ->
        dict_get (calculate_reaim_scores (delete k data)) name
        = dict_get (calculate_reaim_scores data) name)).
Proof.
  split.
  - destruct nasss_domains_nodup as [Hnd Hov].
    exact (scorer_scores_present_entries get_nasss_complexity_level
             nasss_domains Hnd Hov data).
  - destruct reaim_dimensions_nodup as [Hnd Hov].
    exact (scorer_scores_present_entries get_reaim_readiness_level
             reaim_dimensions Hnd Hov data).
Qed.

(** Two of the seven domains present, with scores 2 and 4: the overall
    score is their mean 3 (not 6/7), and an unknown key changes nothing. *)
Lemma overall_is_mean_of_present_witness :
  let data : gmap string Q := <["technology" := 2%Q]> (<["adaptation" := 4%Q]> ∅) in
  dict_get (calculate_nasss_scores data) "overall"
  = Some {| score := Num (mean [2; 4]%Q); level := "Complicated" |}
  /\ dict_get (calculate_nasss_scores data) "adopters" = None
  /\ dict_get (calculate_nasss_scores (<["embedding" := 5%Q]> data)) "technology"
     = dict_get (calculate_nasss_scores data) "technology".
Proof.
  intros data.
  destruct (overall_is_mean_of_present data) as [(_ & Hget & Hov & Hins & _) _].
  split; [| split].
  - apply Hov. vm_compute. discriminate.
  - rewrite Hget by discriminate. reflexivity.
  - apply Hins; discriminate.
Defined.

(** C10: the result of either scorer always has an ['overall'] entry; when
    the input has no name of the vocabulary, its score is the mean of the
    empty list, NaN, and nothing is raised. *)
Theorem overall_always_present (data : gmap string Q) :
  (exists e, dict_get (calculate_nasss_scores data) "overall" = Some e
     /\ ((forall name, name ∈ nasss_domains -> data !! name = None) ->
         calculate_nasss_scores data = [("overall", e)]
         /\ score e = NaN /\ level e = "Chaotic"))
  /\
  (exists e, dict_get (calculate_reaim_scores data) "overall" = Some e
     /\ ((forall name, name ∈ reaim_dimensions -> data !! name = None) ->
         calculate_reaim_scores data = [("overall", e)]
         /\ score e = NaN /\ level e = "Not Ready")).
Proof.
  split; eexists; (split; [apply scorer_overall |]); intros Habs;
    unfold calculate_nasss_scores, calculate_reaim_scores;
    rewrite score_loop_absent by assumption; repeat split.
Qed.

Lemma overall_always_present_witness :
  exists e, dict_get (calculate_nasss_scores ∅) "overall" = Some e
    /\ calculate_nasss_scores ∅ = [("overall", e)]
    /\ score e = NaN /\ level e = "Chaotic".
Proof.
  destruct (overall_always_present ∅) as [(e & He & Hempty) _].
  exists e. split; [exact He |]. apply Hempty.
  intros name _. apply lookup_empty.
Defined.

End FrameworkClaims.

Section Labels.

Import FrameworkAssessmentAnalyzer.

Lemma Qle_bool_false (a b : Q) : Qle_bool a b = false <-> (b < a)%Q.
Proof.
  split.
  - intros H. apply Qnot_le_lt. intros Hle. apply Qle_bool_iff in Hle. congruence.
  - intros H. destruct (Qle_bool a b) eqn:E; [| reflexivity].
    apply Qle_bool_iff in E. exfalso. exact (Qlt_not_le _ _ H E).
Qed.

(** Case analysis on a comparison of the code, leaving the order fact. *)
Ltac by_cases_le :=
  repeat match goal with
    | |- context [Qle_bool ?a ?b] =>
        let E := fresh "E" in
        destruct (Qle_bool a b) eqn:E;
        [apply Qle_bool_iff in E | apply Qle_bool_false in E]
    end.

(** C6: the complexity label of a score s is Simple iff s <= 2,
    Complicated iff 2 < s <= 3, Complex iff 3 < s <= 4 and Chaotic iff
    s > 4; the readiness label is High iff s >= 8, Moderate iff
    6 <= s < 8, Low iff 4 <= s < 6 and Not Ready iff s < 4; with the
    boundary values of the specification. *)
Theorem label_thresholds :
  (forall s : Q,
     (get_nasss_complexity_level (Num s) = "Simple" <-> (s <= 2)%Q)
     /\ (get_nasss_complexity_level (Num s) = "Complicated" <-> (2 < s <= 3)%Q)
     /\ (get_nasss_complexity_level (Num s) = "Complex" <-> (3 < s <= 4)%Q)
     /\ (get_nasss_complexity_level (Num s) = "Chaotic" <-> (4 < s)%Q)
     /\ (get_reaim_readiness_level (Num s) = "High Readiness" <-> (8 <= s)%Q)
     /\ (get_reaim_readiness_level (Num s) = "Moderate Readiness" <-> (6 <= s < 8)%Q)
     /\ (get_reaim_readiness_level (Num s) = "Low Readiness" <-> (4 <= s < 6)%Q)
     /\ (get_reaim_readiness_level (Num s) = "Not Ready" <-> (s < 4)%Q))
  /\ get_nasss_complexity_level (Num 2.0) = "Simple"
  /\ get_nasss_complexity_level (Num 2.01) = "Complicated"
  /\ get_nasss_complexity_level (Num 4.0) = "Complex"
  /\ get_nasss_complexity_level (Num 4.01) = "Chaotic"
  /\ get_reaim_readiness_level (Num 8.0) = "High Readiness"
  /\ get_reaim_readiness_level (Num 7.99) = "Moderate Readiness"
  /\ get_reaim_readiness_level (Num 4.0) = "Low Readiness"
  /\ get_reaim_readiness_level (Num 3.99) = "Not Ready".
Proof.
  split; [| repeat split].
  intros s. unfold get_nasss_complexity_level, get_reaim_readiness_level, num_ge, num_le.
  by_cases_le; repeat split; intros; try discriminate; try reflexivity; lra.
Qed.

(** C3: the decision is 'Ready for pilot implementation' iff c <= 3 and
    r >= 6; otherwise 'Ready with modifications' iff c <= 4 and r >= 4;
    otherwise 'Requires significant development before implementation',
    where c and r are the overall scores of the two analyses (every
    comparison with NaN being false). *)
Theorem readiness_decision_table
    (nasss_analysis reaim_analysis : list (string * scored)) (n r : scored) :
  dict_get nasss_analysis "overall" = Some n ->
  dict_get reaim_analysis "overall" = Some r ->
  let ready := num_leP (score n) (Num 3) /\ num_leP (Num 6) (score r) in
  let modifications := num_leP (score n) (Num 4) /\ num_leP (Num 4) (score r) in
  exists d, make_readiness_decision nasss_analysis reaim_analysis = Ok d
    /\ (d = "Ready for pilot implementation" <-> ready)
    /\ (d = "Ready with modifications" <-> ~ ready /\ modifications)
    /\ (d = "Requires significant development before implementation"
        <-> ~ ready /\ ~ modifications).
Proof.
  intros Hn Hr ready modifications.
  unfold make_readiness_decision, dict_item. rewrite Hn, Hr.
  cbn [mbind result_bind]. unfold num_ge.
  eexists. split; [reflexivity |].
  subst ready modifications. rewrite <- !num_le_spec.
  destruct (num_le (score n) (Num 3)), (num_le (Num 6) (score r)),
    (num_le (score n) (Num 4)), (num_le (Num 4) (score r));
    cbn [andb]; repeat split; intros; try discriminate; intuition congruence.
Qed.

Lemma readiness_decision_table_witness :
  let overall (s : Q) := [("overall", {| score := Num s; level := "" |})] in
  make_readiness_decision (overall 3%Q) (overall 6%Q)
  = Ok "Ready for pilot implementation"
  /\ make_readiness_decision (overall 3.5%Q) (overall 5%Q)
     = Ok "Ready with modifications"
  /\ make_readiness_decision (overall 4.5%Q) (overall 3%Q)
     = Ok "Requires significant development before implementation".
Proof.
  intros overall.
  destruct (readiness_decision_table (overall 3%Q) (overall 6%Q) _ _ eq_refl eq_refl)
    as (d1 & H1 & R1 & _ & _).
  destruct (readiness_decision_table (overall 3.5%Q) (overall 5%Q) _ _ eq_refl eq_refl)
    as (d2 & H2 & _ & M2 & _).
  destruct (readiness_decision_table (overall 4.5%Q) (overall 3%Q) _ _ eq_refl eq_refl)
    as (d3 & H3 & _ & _ & D3).
  split; [| split].
  - rewrite H1. f_equal. apply R1. simpl. split; discriminate.
  - rewrite H2. f_equal. apply M2. simpl. split; [| split; discriminate].
    intros [H _]. apply H. reflexivity.
  - rewrite H3. f_equal. apply D3. simpl. split; intros [H _]; apply H; reflexivity.
Defined.

(** The assessments of [main_atlas_evaluation]: overall complexity
    21.5/7 and overall readiness 5.8. *)
Example driver_readiness_decision :
  readiness_decision
    (list_to_map [("technology", 2.5); ("value_proposition", 3.0); ("adopters", 3.5);
                  ("organization", 4.0); ("wider_system", 3.0); ("embedding", 3.5);
                  ("adaptation", 2.0)]%Q)
    (list_to_map [("reach", 7.0); ("effectiveness", 6.5); ("adoption", 5.0);
                  ("implementation", 4.5); ("maintenance", 6.0)]%Q)
  = Ok "Ready with modifications".
Proof. vm_compute. reflexivity. Qed.

End Labels.

(** ** The performance analyzer *)

Section Performance.

Import ATLASPerformanceAnalyzer.

Lemma compare_nonzero (metric : string) (target actual : Q) :
  ~ (target == 0)%Q -> compare metric target actual = Ok (compared metric target actual).
Proof.
  intros H. unfold compare. now rewrite truediv_nonzero.
Qed.

Lemma compare_zero (metric : string) (target actual : Q) :
  (target == 0)%Q -> compare metric target actual = Raise ZeroDivisionError.
Proof.
  intros H. unfold compare. now rewrite truediv_by_zero.
Qed.

Lemma recognized_cons (it : string * Q) (items : list (string * Q))
    (data : gmap string Q) :
  recognized (it :: items) data
  = match data !! it.1 with
    | Some a => (it.1, compared it.1 it.2 a) :: recognized items data
    | None => recognized items data
    end.
Proof. unfold recognized. simpl. now destruct (data !! it.1). Qed.

Lemma recognized_nil (items : list (string * Q)) (data : gmap string Q) :
  (forall metric, metric ∈ items.*1 -> data !! metric = None) ->
  recognized items data = [].
Proof.
  induction items as [| it items IH]; intros H; [reflexivity |].
  rewrite recognized_cons, (H it.1) by left.
  apply IH. intros metric Hin. apply H. now right.
Qed.

Lemma recognized_some (items : list (string * Q)) (data : gmap string Q)
    (metric : string) :
  metric ∈ items.*1 -> is_Some (data !! metric) -> recognized items data <> [].
Proof.
  induction items as [| it items IH]; intros Hin [a Ha]; [inversion Hin |].
  rewrite recognized_cons.
  destruct (data !! it.1) as [b |] eqn:E; [discriminate |].
  apply IH; [| now exists a].
  apply elem_of_cons in Hin as [-> | Hin]; [congruence | assumption].
Qed.

Lemma analyze_loop_recognized (items : list (string * Q)) (data : gmap string Q)
    (results : list (string * comparison)) :
  NoDup items.*1 ->
  (forall it, it ∈ items -> ~ (it.2 == 0)%Q) ->
  (forall metric, metric ∈ items.*1 -> dict_get results metric = None) ->
  analyze_loop items data results = Ok (results ++ recognized items data).
Proof.
  revert results. induction items as [| [metric target] items IH];
    intros results Hnd Hnz Hfresh.
  - simpl. now rewrite app_nil_r.
  - apply NoDup_cons in Hnd as [Hm Hnd]. rewrite recognized_cons. simpl.
    destruct (data !! metric) as [a |] eqn:E.
    + rewrite compare_nonzero by (apply (Hnz (metric, target)); left).
      cbn [mbind result_bind].
      rewrite dict_set_fresh by (apply Hfresh; left).
      rewrite IH; [now rewrite <- app_assoc | assumption | |].
      * intros it Hin. apply Hnz. now right.
      * intros k Hin. rewrite dict_get_app, Hfresh by now right. simpl.
        destruct (String.eqb metric k) eqn:Eb; [| reflexivity].
        apply String.eqb_eq in Eb. subst. contradiction.
    + apply IH; [assumption | |].
      * intros it Hin. apply Hnz. now right.
      * intros k Hin. apply Hfresh. now right.
Qed.

Lemma analyze_recognized (data : gmap string Q) :
  analyze_performance_metrics data = Ok (recognized targets data).
Proof.
  unfold analyze_performance_metrics.
  rewrite analyze_loop_recognized; [reflexivity | compute_done | | reflexivity].
  intros it Hin. unfold targets in Hin.
  repeat (apply elem_of_cons in Hin as [-> | Hin]; [discriminate |]).
  inversion Hin.
Qed.

(** C5: for a non-zero target the comparison stores the inputs, meets the
    target iff actual >= target for a higher-is-better metric and iff
    actual <= target otherwise, and has variance (actual - target) / target
    * 100; for a zero target the division raises [ZeroDivisionError].  The
    metrics pwa_score 85 and performance_score 78 miss their targets 90
    and 80 with variances -50/9 = -5.55... and -5/2. *)
Theorem compare_meets_and_variance :
  (forall (metric : string) (target actual : Q),
     (~ (target == 0)%Q ->
      exists c, compare metric target actual = Ok c
        /\ ATLASPerformanceAnalyzer.actual c = actual
        /\ ATLASPerformanceAnalyzer.target c = target
        /\ (meets_target c = true <->
            if higher_is_better metric then (target <= actual)%Q
            else (actual <= target)%Q)
        /\ (variance_percent c == (actual - target) / target * 100)%Q)
     /\ ((target == 0)%Q -> compare metric target actual = Raise ZeroDivisionError))
  /\ (exists c1 c2,
        analyze_performance_metrics
          (<["pwa_score" := 85%Q]> (<["performance_score" := 78%Q]> ∅))
        = Ok [("pwa_score", c1); ("performance_score", c2)]
        /\ ATLASPerformanceAnalyzer.target c1 = 90%Q
        /\ ATLASPerformanceAnalyzer.target c2 = 80%Q
        /\ meets_target c1 = false /\ meets_target c2 = false
        /\ (variance_percent c1 == - (50 # 9))%Q
        /\ (-5.56 < variance_percent c1 < -5.55)%Q
        /\ (variance_percent c2 == -2.5)%Q).
Proof.
  split.
  - intros metric target actual. split.
    + intros Hnz. exists (compared metric target actual).
      split; [now apply compare_nonzero |]. repeat split; try reflexivity.
      * simpl. unfold ge, le. destruct (higher_is_better metric); apply Qle_bool_iff.
      * simpl. unfold ge, le. destruct (higher_is_better metric); apply Qle_bool_iff.
    + apply compare_zero.
  - do 2 eexists. split; [vm_compute; reflexivity |].
    repeat split; try reflexivity; vm_compute; congruence.
Qed.

Lemma compare_meets_and_variance_witness :
  (exists c, compare "pwa_score" 90 85 = Ok c
     /\ (meets_target c = true <-> (90 <= 85)%Q)
     /\ (variance_percent c == (85 - 90) / 90 * 100)%Q)
  /\ compare "pwa_score" 0 85 = Raise ZeroDivisionError.
Proof.
  destruct compare_meets_and_variance as [H _].
  destruct (H "pwa_score" 90%Q 85%Q) as [Hok _].
  destruct (H "pwa_score" 0%Q 85%Q) as [_ Hzero].
  split; [| apply Hzero; reflexivity].
  destruct Hok as (c & Hc & _ & _ & Hm & Hv); [discriminate |].
  exists c. split; [exact Hc |]. split; [exact Hm | exact Hv].
Defined.

(** C9: the analysis holds exactly the recognized metrics; the report
    divides the number of targets met by their number, so when no key of
    the input is in the target table (as for the empty input) the division
    raises [ZeroDivisionError] and no report is returned, and otherwise a
    report is returned with that ratio times 100 as overall score. *)
Theorem report_fails_without_recognized_metric
    (url now : string) (metrics_data : gmap string Q) :
  let analysis := recognized targets metrics_data in
  analyze_performance_metrics metrics_data = Ok analysis
  /\ ((forall metric, metric ∈ targets.*1 -> metrics_data !! metric = None) ->
      analysis = []
      /\ generate_performance_report url now metrics_data = Raise ZeroDivisionError)
  /\ ((exists metric, metric ∈ targets.*1 /\ is_Some (metrics_data !! metric)) ->
      exists rep, generate_performance_report url now metrics_data = Ok rep
        /\ metrics_analysis rep = analysis
        /\ total_metrics (report_summary rep) = length analysis
        /\ targets_met (report_summary rep) = count_met analysis
        /\ overall_score (report_summary rep)
           = (of_int (count_met analysis) / of_int (length analysis) * 100)%Q)
  /\ generate_performance_report url now ∅ = Raise ZeroDivisionError.
Proof.
  intros analysis. split; [apply analyze_recognized |]. split; [| split].
  - intros Habs. assert (E : analysis = []) by now apply recognized_nil.
    split; [exact E |]. unfold generate_performance_report.
    rewrite analyze_recognized. fold analysis. rewrite E. reflexivity.
  - intros (metric & Hin & Hsome).
    assert (Hne : analysis <> []) by now apply (recognized_some _ _ metric).
    unfold generate_performance_report. rewrite analyze_recognized. fold analysis.
    cbn [mbind result_bind]. rewrite truediv_of_int.
    + cbn [mbind result_bind]. eexists. repeat split.
    + destruct analysis; [congruence | simpl; lia].
  - reflexivity.
Qed.

Lemma report_fails_without_recognized_metric_witness :
  generate_performance_report "app" "now" (<["load_time" := 3%Q]> ∅)
  = Raise ZeroDivisionError
  /\ exists rep,
       generate_performance_report "app" "now"
         (<["pwa_score" := 95%Q]> (<["performance_score" := 78%Q]> ∅)) = Ok rep
       /\ overall_score (report_summary rep) = (of_int 1 / of_int 2 * 100)%Q.
Proof.
  split.
  - destruct (report_fails_without_recognized_metric "app" "now"
                (<["load_time" := 3%Q]> ∅)) as (_ & Hnone & _).
    apply Hnone. intros metric Hin. unfold targets in Hin. simpl in Hin.
    repeat (apply elem_of_cons in Hin as [-> | Hin]; [reflexivity |]).
    inversion Hin.
  - destruct (report_fails_without_recognized_metric "app" "now"
                (<["pwa_score" := 95%Q]> (<["performance_score" := 78%Q]> ∅)))
      as (_ & _ & Hsome & _).
    destruct Hsome as (rep & Hrep & _ & _ & _ & Hscore).
    + exists "pwa_score". split; [compute_done | now exists 95%Q].
    + exists rep. split; [exact Hrep | exact Hscore].
Defined.

End Performance.

(** ** The expert evaluation analyzer *)

Section Expert.

Import ExpertEvaluationAnalyzer.

Lemma no_rows_empty (df : DataFrame) : index_len df = 0%nat -> empty df = true.
Proof. intros H. unfold empty. now rewrite H. Qed.

(** C7: on an empty frame of responses the analysis raises nothing and
    returns the placeholder: no experts, an empty table of expert types,
    mean years of experience and resource-limited percentage 0, and a
    usability analysis of mean 0, standard deviation 0 and grade 'N/A'. *)
Theorem empty_responses_summary (sqrt : Q -> Q) (expert_responses_df : DataFrame) :
  empty expert_responses_df = true ->
  exists a, analyze_expert_responses sqrt expert_responses_df = Ok a
    /\ total_experts (a_response_summary a) = 0%nat
    /\ expert_types (a_response_summary a) = []
    /\ avg_years_experience (a_response_summary a) = Num 0
    /\ resource_limited_experience_pct (a_response_summary a) = 0%Q
    /\ mean_sus (a_sus_analysis a) = Num 0
    /\ std_sus (a_sus_analysis a) = Num 0
    /\ sus_grade (a_sus_analysis a) = "N/A".
Proof.
  intros Hempty. unfold analyze_expert_responses. rewrite Hempty.
  exists placeholder. repeat split.
Qed.

Lemma empty_responses_summary_witness :
  exists a,
    analyze_expert_responses (fun q => q) {| index_len := 0; columns := [] |} = Ok a
    /\ total_experts (a_response_summary a) = 0%nat
    /\ sus_grade (a_sus_analysis a) = "N/A".
Proof.
  destruct (empty_responses_summary (fun q => q) {| index_len := 0; columns := [] |})
    as (a & Ha & Hn & _ & _ & _ & _ & _ & Hg).
  - apply no_rows_empty. reflexivity.
  - exists a. split; [exact Ha |]. split; [exact Hn | exact Hg].
Defined.

Lemma keyword_loop_mentions (keywords : list string) (c cl : string) (r : theme_result) :
  mentions (keyword_loop keywords c cl r)
  = (mentions r + if existsb (fun keyword => contains keyword cl) keywords then 1 else 0)%nat.
Proof.
  induction keywords as [| k keywords IH]; simpl; [lia |].
  destruct (contains k cl); simpl; [lia | exact IH].
Qed.

Lemma comment_step_mentions (keywords : list string) (c : comment) (r : theme_result) :
  mentions (comment_loop keywords [c] r)
  = (mentions r + if tagged keywords c then 1 else 0)%nat.
Proof.
  destruct c as [[| a s] |]; simpl; try lia.
  apply keyword_loop_mentions.
Qed.

Lemma comment_loop_cons (keywords : list string) (c : comment)
    (comments : list comment) (r : theme_result) :
  comment_loop keywords (c :: comments) r
  = comment_loop keywords comments (comment_loop keywords [c] r).
Proof. reflexivity. Qed.

Lemma comment_loop_mentions (keywords : list string) (comments : list comment)
    (r : theme_result) :
  mentions (comment_loop keywords comments r)
  = (mentions r + length (List.filter (tagged keywords) comments))%nat.
Proof.
  revert r. induction comments as [| c comments IH]; intros r.
  - simpl. lia.
  - rewrite comment_loop_cons, IH, comment_step_mentions. simpl.
    destruct (tagged keywords c); simpl; lia.
Qed.

Lemma thematic_results_shape (comments_data : list comment) :
  perform_thematic_analysis comments_data
  = map (fun th => (th.1, comment_loop th.2 comments_data
                            {| mentions := 0; examples := [] |})) themes.
Proof. reflexivity. Qed.

(** C8: within a theme a comment raises the count of mentions by one when
    it is tagged and by nothing otherwise, the first keyword found ending
    the search whatever keywords follow; so the mentions of a theme are the
    number of tagged comments, at most the number of comments.  A comment
    can be tagged with several themes: the sample comment counts once for
    usability and once for technical_issues. *)
Theorem one_mention_per_comment_and_theme :
  (forall (k : string) (ks ks' : list string) (c cl : string) (r : theme_result),
     contains k cl = true ->
     keyword_loop (k :: ks) c cl r = keyword_loop (k :: ks') c cl r
     /\ mentions (keyword_loop (k :: ks) c cl r) = S (mentions r))
  /\ (forall (keywords : list string) (c : comment) (r : theme_result),
        mentions (comment_loop keywords [c] r)
        = (mentions r + if tagged keywords c then 1 else 0)%nat)
  /\ (forall (comments_data : list comment) (theme : string) (keywords : list string),
        (theme, keywords) ∈ themes ->
        exists r, dict_get (perform_thematic_analysis comments_data) theme = Some r
          /\ mentions r = length (List.filter (tagged keywords) comments_data)
          /\ (mentions r <= length comments_data)%nat)
  /\ (let result :=
        perform_thematic_analysis
          [Text "The interface is intuitive but the app is slow"] in
      (mentions <$> dict_get result "usability") = Some 1%nat
      /\ (mentions <$> dict_get result "technical_issues") = Some 1%nat).
Proof.
  split; [| split; [| split]].
  - intros k ks ks' c cl r Hk. simpl. rewrite Hk. split; reflexivity.
  - apply comment_step_mentions.
  - intros comments_data theme keywords Hin.
    exists (comment_loop keywords comments_data {| mentions := 0; examples := [] |}).
    split; [| split].
    + rewrite thematic_results_shape. unfold themes in *.
      repeat (apply elem_of_cons in Hin as [Heq | Hin];
              [injection Heq as -> ->; reflexivity |]).
      inversion Hin.
    + now rewrite comment_loop_mentions.
    + rewrite comment_loop_mentions. simpl. apply List.filter_length_le.
  - split; vm_compute; reflexivity.
Qed.

Lemma one_mention_per_comment_and_theme_witness :
  (exists r,
     dict_get (perform_thematic_analysis
                 [Text "Easy and simple"; Other; Text "Too SLOW"]) "usability" = Some r
     /\ mentions r = 1%nat)
  /\ mentions (keyword_loop ["easy"; "simple"] "Easy and simple" "easy and simple"
                 {| mentions := 0; examples := [] |}) = 1%nat.
Proof.
  destruct one_mention_per_comment_and_theme as (Hbreak & _ & Hcount & _).
  split.
  - destruct (Hcount [Text "Easy and simple"; Other; Text "Too SLOW"] "usability"
                ["easy"; "intuitive"; "user-friendly"; "simple"; "complex"; "difficult"])
      as (r & Hr & Hm & _); [compute_done |].
    exists r. split; [exact Hr |]. rewrite Hm. reflexivity.
  - apply (Hbreak "easy" ["simple"] [] "Easy and simple" "easy and simple"). reflexivity.
Defined.

End Expert.

(** * Further properties *)

(** ** Ratios of counts *)

Section Ratios.

Lemma of_int_le (m n : nat) : (of_int m <= of_int n)%Q <-> (m <= n)%nat.
Proof. unfold of_int, Qle; simpl. lia. Qed.

Lemma of_int_eq (m n : nat) : (of_int m == of_int n)%Q <-> m = n.
Proof. unfold of_int, Qeq; simpl. lia. Qed.

Lemma ratio_bounds (m n : nat) :
  (m <= n)%nat -> (0 < n)%nat ->
  (0 <= of_int m / of_int n <= 1)%Q
  /\ ((of_int m / of_int n == 1)%Q <-> m = n)
  /\ ((of_int m / of_int n == 0)%Q <-> m = 0%nat).
Proof.
  intros Hle Hn.
  assert (Hpos : (0 < of_int n)%Q) by now apply of_int_pos.
  assert (Hm : (0 <= of_int m)%Q) by (apply (of_int_le 0 m); lia).
  assert (Hmn : (of_int m <= of_int n)%Q) by now apply of_int_le.
  assert (Hne : ~ (of_int n == 0)%Q) by lra.
  repeat split.
  - apply Qle_shift_div_l; lra.
  - apply Qle_shift_div_r; lra.
  - intros H. apply of_int_eq.
    rewrite <- (Qmult_div_r (of_int m) (of_int n)) by exact Hne. rewrite H. lra.
  - intros ->. unfold Qdiv. now apply Qmult_inv_r.
  - intros H. apply (of_int_eq m 0).
    rewrite <- (Qmult_div_r (of_int m) (of_int n)) by exact Hne. rewrite H.
    change (of_int 0) with 0%Q. lra.
  - intros ->. change (of_int 0) with 0%Q. unfold Qdiv. lra.
Qed.

Lemma percent_bounds (m n : nat) :
  (m <= n)%nat -> (0 < n)%nat ->
  (0 <= of_int m / of_int n * 100 <= 100)%Q
  /\ ((of_int m / of_int n * 100 == 100)%Q <-> m = n)
  /\ ((of_int m / of_int n * 100 == 0)%Q <-> m = 0%nat).
Proof.
  intros Hle Hn. destruct (ratio_bounds m n Hle Hn) as ([H0 H1] & Hone & Hzero).
  repeat split; try lra.
  - intros H. apply Hone. lra.
  - intros H. apply Hone in H. lra.
  - intros H. apply Hzero. lra.
  - intros H. apply Hzero in H. lra.
Qed.

End Ratios.

(** ** Performance analysis and report *)

Section PerformanceProperties.

Import ATLASPerformanceAnalyzer.

Lemma recognized_get (items : list (string * Q)) (data : gmap string Q)
    (name : string) :
  dict_get (recognized items data) name
  = dict_get items name ≫= fun t => compared name t <$> data !! name.
Proof.
  induction items as [| [k t] items IH]; [reflexivity |].
  rewrite recognized_cons. cbn [fst snd dict_get].
  destruct (String.eqb k name) eqn:E.
  - apply String.eqb_eq in E. subst k.
    destruct (data !! name) as [a |] eqn:Ea; cbn.
    + now rewrite String.eqb_refl.
    + rewrite IH. now destruct (dict_get items name).
  - destruct (data !! k) as [a |] eqn:Ea; cbn; [rewrite E |]; exact IH.
Qed.

Lemma recognized_length (items : list (string * Q)) (data : gmap string Q) :
  (length (recognized items data) <= length items)%nat.
Proof.
  induction items as [| it items IH]; [reflexivity |].
  rewrite recognized_cons. destruct (data !! it.1); simpl; lia.
Qed.

Lemma recognized_ext (items : list (string * Q)) (data data' : gmap string Q) :
  (forall name, name ∈ items.*1 -> data !! name = data' !! name) ->
  recognized items data = recognized items data'.
Proof.
  induction items as [| it items IH]; intros H; [reflexivity |].
  rewrite !recognized_cons, <- (H it.1) by left.
  rewrite IH; [reflexivity |]. intros name Hin. apply H. now right.
Qed.

Lemma targets_positive (name : string) (t : Q) :
  dict_get targets name = Some t -> (0 < t)%Q.
Proof.
  unfold targets. cbn [dict_get].
  repeat (match goal with
          | |- context [String.eqb ?a name] => destruct (String.eqb a name)
          end; [intros [= <-]; reflexivity |]).
  discriminate.
Qed.

(** X1: the analysis never raises; it holds at most five entries, one for
    each name of the target table that is a key of the input, comparing the
    input's value with that target; keys outside the table are not read, so
    inserting or deleting one leaves the analysis as it is. *)
Theorem analysis_reads_only_targets (metrics_data : gmap string Q) :
  exists analysis,
    analyze_performance_metrics metrics_data = Ok analysis
    /\ (length analysis <= 5)%nat
    /\ (forall name,
          dict_get analysis name
          = dict_get targets name ≫= fun t => compared name t <$> metrics_data !! name)
    /\ (forall k v, k ∉ targets.*1 ->
          analyze_performance_metrics (<[k:=v]> metrics_data) = Ok analysis)
    /\ (forall k, k ∉ targets.*1 ->
          analyze_performance_metrics (delete k metrics_data) = Ok analysis).
Proof.
  exists (recognized targets metrics_data).
  split; [apply analyze_recognized |]. split; [apply (recognized_length targets) |].
  split; [intros name; apply recognized_get |]. split.
  - intros k v Hk. rewrite analyze_recognized. f_equal. apply recognized_ext.
    intros name Hin. apply lookup_insert_ne. intros ->. contradiction.
  - intros k Hk. rewrite analyze_recognized. f_equal. apply recognized_ext.
    intros name Hin. apply lookup_delete_ne. intros ->. contradiction.
Qed.

Lemma analysis_reads_only_targets_witness :
  analyze_performance_metrics (<["load_time" := 7%Q]> (<["pwa_score" := 95%Q]> ∅))
  = analyze_performance_metrics (<["pwa_score" := 95%Q]> ∅).
Proof.
  destruct (analysis_reads_only_targets (<["pwa_score" := 95%Q]> ∅))
    as (a & Ha & _ & _ & Hins & _).
  rewrite Ha. apply Hins. compute_done.
Defined.

(** X2: every target of the table is positive, so an entry of the analysis
    meets its target exactly when its variance has the good sign: not
    negative for a higher-is-better metric, not positive for the others. *)
Theorem meets_target_iff_variance_sign
    (metrics_data : gmap string Q) (analysis : list (string * comparison))
    (name : string) (c : comparison) :
  analyze_performance_metrics metrics_data = Ok analysis ->
  dict_get analysis name = Some c ->
  (0 < target c)%Q
  /\ (meets_target c = true <->
      if higher_is_better name then (0 <= variance_percent c)%Q
      else (variance_percent c <= 0)%Q).
Proof.
  rewrite analyze_recognized. intros Ha.
  assert (Heq : analysis = recognized targets metrics_data) by congruence.
  subst analysis. clear Ha. rewrite recognized_get.
  destruct (dict_get targets name) as [t |] eqn:Et; [| discriminate]. cbn.
  destruct (metrics_data !! name) as [a |]; [| discriminate]. cbn.
  intros [= <-]. apply targets_positive in Et. cbn.
  split; [exact Et |].
  assert (Hv : ((a - t) / t * 100 == (a - t) * (100 / t))%Q) by (field; lra).
  assert (Hk : (0 < 100 / t)%Q) by (apply Qdiv_pos; lra).
  unfold ge, le. destruct (higher_is_better name); rewrite Qle_bool_iff, Hv; split; intros H.
  - apply Qmult_le_0_compat; lra.
  - assert (0 <= a - t)%Q; [| lra].
    apply (Qmult_le_r _ _ (100 / t)); [exact Hk | lra].
  - assert ((a - t) * (100 / t) <= 0 * (100 / t))%Q; [| lra].
    apply Qmult_le_compat_r; lra.
  - assert (a - t <= 0)%Q; [| lra].
    apply (Qmult_le_r _ _ (100 / t)); [exact Hk | lra].
Qed.

Lemma meets_target_iff_variance_sign_witness :
  let c := compared "time_to_interactive" 3 2.4 in
  (0 < target c)%Q /\ (meets_target c = true <-> (variance_percent c <= 0)%Q).
Proof.
  intros c.
  apply (meets_target_iff_variance_sign (<["time_to_interactive" := 2.4%Q]> ∅)
           [("time_to_interactive", c)] "time_to_interactive" c);
    reflexivity.
Defined.



Lemma recognized_metrics_dict (m : lighthouse_metrics) :
  recognized targets (metrics_dict m)
  = [("pwa_score", compared "pwa_score" 90 (pwa_score m));
     ("performance_score", compared "performance_score" 80 (performance_score m));
     ("first_contentful_paint",
      compared "first_contentful_paint" 2 (first_contentful_paint m));
     ("time_to_interactive",
      compared "time_to_interactive" 3 (time_to_interactive m))].
Proof.
  unfold metrics_dict, recognized, targets.
  destruct (cumulative_layout_shift m);
    cbn [omap list_omap fst snd]; simplify_map_eq; reflexivity.
Qed.

Lemma collect_cases (lighthouse_data : lighthouse) :
  collect_lighthouse_data lighthouse_data = Raise TypeError
  \/ exists q1 q2 q3 q4,
       leaf (categories lighthouse_data) "pwa" "score" = JNumber q1
       /\ leaf (categories lighthouse_data) "performance" "score" = JNumber q2
       /\ leaf (audits lighthouse_data) "first-contentful-paint" "numericValue"
          = JNumber q3
       /\ leaf (audits lighthouse_data) "interactive" "numericValue" = JNumber q4
       /\ collect_lighthouse_data lighthouse_data
          = Ok {| pwa_score := (q1 * 100)%Q;
                  performance_score := (q2 * 100)%Q;
                  first_contentful_paint := (q3 / 1000)%Q;
                  time_to_interactive := (q4 / 1000)%Q;
                  cumulative_layout_shift :=
                    leaf (audits lighthouse_data) "cumulative-layout-shift"
                      "numericValue" |}.
Proof.
  unfold collect_lighthouse_data.
  destruct (leaf (categories lighthouse_data) "pwa" "score") as [q1 |];
    [| now left].
  destruct (leaf (categories lighthouse_data) "performance" "score") as [q2 |];
    [| now left].
  destruct (leaf (audits lighthouse_data) "first-contentful-paint" "numericValue")
    as [q3 |]; [| now left].
  destruct (leaf (audits lighthouse_data) "interactive" "numericValue")
    as [q4 |]; [| now left].
  right. exists q1, q2, q3, q4. repeat (split; [reflexivity |]).
  cbn [times over mbind result_bind].
  rewrite !truediv_nonzero by discriminate. reflexivity.
Qed.

(** X4: reading Lighthouse data either raises [TypeError] (a score or a
    timing that is null) or returns metrics on which the report never
    divides by zero: it always covers exactly the four metrics pwa_score,
    performance_score, first_contentful_paint and time_to_interactive (the
    fifth target, offline_success_rate, is never collected). *)
Theorem lighthouse_report_covers_four_metrics
    (url now : string) (lighthouse_data : lighthouse) :
  collect_lighthouse_data lighthouse_data = Raise TypeError
  \/ exists m rep,
       collect_lighthouse_data lighthouse_data = Ok m
       /\ generate_performance_report url now (metrics_dict m) = Ok rep
       /\ map fst (metrics_analysis rep)
          = ["pwa_score"; "performance_score"; "first_contentful_paint";
             "time_to_interactive"]
       /\ total_metrics (report_summary rep) = 4%nat.
Proof.
  destruct (collect_cases lighthouse_data) as [Hraise | (q1 & q2 & q3 & q4 & Hc)];
    [now left | right].
  destruct Hc as (_ & _ & _ & _ & ->). eexists.
  unfold generate_performance_report. rewrite analyze_recognized.
  rewrite recognized_metrics_dict. cbn [mbind result_bind].
  rewrite truediv_of_int by (simpl; lia). cbn [mbind result_bind].
  eexists. repeat split.
Qed.

(** X5: a timing audit without a value is read as 0 seconds, and since
    lower is better the report counts its target as met, with a variance of
    -100 percent. *)
Theorem absent_timing_counts_as_met
    (lighthouse_data : lighthouse) (m : lighthouse_metrics) :
  collect_lighthouse_data lighthouse_data = Ok m ->
  audit_value lighthouse_data "first-contentful-paint" = None ->
  exists analysis c,
    analyze_performance_metrics (metrics_dict m) = Ok analysis
    /\ dict_get analysis "first_contentful_paint" = Some c
    /\ (actual c == 0)%Q
    /\ meets_target c = true
    /\ (variance_percent c == -100)%Q.
Proof.
  intros Hm Habs.
  assert (Hleaf : leaf (audits lighthouse_data) "first-contentful-paint"
                    "numericValue" = JNumber 0).
  { unfold leaf. unfold audit_value in Habs.
    destruct (audits lighthouse_data) as [au |]; cbn in *.
    - destruct (au !! "first-contentful-paint") as [o |]; cbn in *.
      + now rewrite Habs.
      + reflexivity.
    - reflexivity. }
  destruct (collect_cases lighthouse_data) as [Hraise | (q1 & q2 & q3 & q4 & Hc)];
    [congruence |].
  destruct Hc as (_ & _ & H3 & _ & Hok).
  rewrite Hleaf in H3. injection H3 as <-.
  rewrite Hok in Hm. injection Hm as <-.
  do 2 eexists. rewrite analyze_recognized, recognized_metrics_dict.
  split; [reflexivity |]. split; [reflexivity |]. cbn.
  repeat split.
Qed.

Lemma absent_timing_counts_as_met_witness :
  let lighthouse_data :=
    {| categories :=
         Some (<["pwa" := {["score" := JNumber 0.9]}]>
                 {["performance" := {["score" := JNumber 0.7]}]});
       audits :=
         Some (<["interactive" := {["numericValue" := JNumber 2500]}]>
                 {["cumulative-layout-shift" := {["numericValue" := JNull]}]}) |} in
  exists m analysis c,
    collect_lighthouse_data lighthouse_data = Ok m
    /\ analyze_performance_metrics (metrics_dict m) = Ok analysis
    /\ dict_get analysis "first_contentful_paint" = Some c
    /\ meets_target c = true.
Proof.
  intros lighthouse_data.
  assert (Hm : exists m, collect_lighthouse_data lighthouse_data = Ok m)
    by (eexists; reflexivity).
  destruct Hm as [m Hm].
  destruct (absent_timing_counts_as_met lighthouse_data m Hm)
    as (a & c & Ha & Hc & _ & Hmeet & _); [reflexivity |].
  exists m, a, c. repeat (split; [assumption |]). assumption.
Defined.

End PerformanceProperties.

(** ** Clinical metrics and WHO alignment *)

Section ClinicalProperties.

Import ClinicalScenarioAnalyzer.

Lemma of_int_add (m n : nat) : (of_int (m + n) == of_int m + of_int n)%Q.
Proof. unfold of_int. rewrite Nat2Z.inj_add, inject_Z_plus. reflexivity. Qed.

Lemma of_int_nonneg (n : nat) : (0 <= of_int n)%Q.
Proof. apply (of_int_le 0 n). lia. Qed.

Lemma guarded_ratio_bounds (a n : nat) :
  (a <= n)%nat ->
  (0 <= (if (0 <? n)%nat then of_int a / of_int n else 0) <= 1)%Q.
Proof.
  intros Hle. destruct (0 <? n)%nat eqn:E; [| lra].
  apply Nat.ltb_lt in E. now apply ratio_bounds.
Qed.

Lemma metrics_fields (tp fp tn fn : nat) (m : metrics) :
  metrics_of_counts tp fp tn fn = Ok m ->
  (0 < tp + fp + tn + fn)%nat
  /\ accuracy m = (of_int (tp + tn) / of_int (tp + fp + tn + fn))%Q
  /\ precision m = (if (0 <? tp + fp)%nat then of_int tp / of_int (tp + fp) else 0)%Q
  /\ recall m = (if (0 <? tp + fn)%nat then of_int tp / of_int (tp + fn) else 0)%Q
  /\ specificity m = (if (0 <? tn + fp)%nat then of_int tn / of_int (tn + fp) else 0)%Q
  /\ f1_score_of tp fp fn = Ok (f1_score m).
Proof.
  intros Hm.
  destruct (Nat.eq_dec (tp + fp + tn + fn) 0) as [Hz | Hnz].
  { destruct (metrics_undefined _ _ _ _ Hz) as [_ E]. congruence. }
  assert (Hpos : (0 < tp + fp + tn + fn)%nat) by lia.
  destruct (metrics_total tp fp tn fn Hpos) as (m' & Hm' & Ha & Hp & Hr & Hs & Hf).
  assert (m' = m) by congruence. subst m'.
  rewrite accuracy_total in Ha by assumption.
  unfold precision_of, recall_of, specificity_of in Hp, Hr, Hs.
  rewrite guarded_ratio in Hp, Hr, Hs.
  repeat split; try assumption; congruence.
Qed.

Lemma f1_closed (tp fp fn : nat) :
  (0 < tp)%nat ->
  (2 * (of_int tp / of_int (tp + fp) * (of_int tp / of_int (tp + fn)))
   / (of_int tp / of_int (tp + fp) + of_int tp / of_int (tp + fn))
   == 2 * of_int tp / (2 * of_int tp + of_int fp + of_int fn))%Q.
Proof.
  intros Htp. rewrite !of_int_add.
  pose proof (of_int_pos tp Htp). pose proof (of_int_nonneg fp).
  pose proof (of_int_nonneg fn).
  assert (0 < of_int tp * (of_int tp + of_int fn))%Q
    by (apply Qmult_lt_0_compat; lra).
  assert (0 < of_int tp * (of_int tp + of_int fp))%Q
    by (apply Qmult_lt_0_compat; lra).
  field. repeat split; lra.
Qed.

(** X6: for every non-empty confusion matrix the five metrics lie between
    0 and 1, and accuracy is 1 exactly when there is neither a false
    positive nor a false negative. *)
Theorem metrics_in_unit_interval (tp fp tn fn : nat) (m : metrics) :
  metrics_of_counts tp fp tn fn = Ok m ->
  (0 <= accuracy m <= 1)%Q
  /\ (0 <= precision m <= 1)%Q
  /\ (0 <= recall m <= 1)%Q
  /\ (0 <= specificity m <= 1)%Q
  /\ (0 <= f1_score m <= 1)%Q
  /\ ((accuracy m == 1)%Q <-> fp = 0%nat /\ fn = 0%nat).
Proof.
  intros Hm. destruct (metrics_fields _ _ _ _ _ Hm) as (Hpos & Ha & Hp & Hr & Hs & Hf).
  rewrite Ha, Hp, Hr, Hs.
  destruct (ratio_bounds (tp + tn) (tp + fp + tn + fn)) as (Hab & Ha1 & _);
    [lia | assumption |].
  split; [exact Hab |].
  split; [apply guarded_ratio_bounds; lia |].
  split; [apply guarded_ratio_bounds; lia |].
  split; [apply guarded_ratio_bounds; lia |].
  split; [| rewrite Ha1; lia].
  destruct tp as [| tp'].
  - rewrite f1_score_without_tp in Hf. injection Hf as <-. lra.
  - rewrite f1_score_with_tp in Hf by lia. injection Hf as <-.
    cbv zeta. rewrite (f1_closed (S tp') fp fn) by lia.
    pose proof (of_int_pos (S tp') ltac:(lia)). pose proof (of_int_nonneg fp).
    pose proof (of_int_nonneg fn).
    split.
    + apply Qle_shift_div_l; lra.
    + apply Qle_shift_div_r; lra.
Qed.

Lemma metrics_in_unit_interval_witness :
  exists m, metrics_of_counts 3 1 2 3 = Ok m
    /\ (0 <= accuracy m <= 1)%Q /\ (0 <= f1_score m <= 1)%Q.
Proof.
  eexists. split; [reflexivity |].
  destruct (metrics_in_unit_interval 3 1 2 3 _ eq_refl) as (Ha & _ & _ & _ & Hf & _).
  split; [exact Ha | exact Hf].
Defined.

(** X7: with at least one true positive, F1 is 2TP / (2TP + FP + FN); it
    is 1 exactly when there is neither a false positive nor a false
    negative, whatever the number of true negatives. *)
Theorem f1_closed_form (tp fp tn fn : nat) (m : metrics) :
  metrics_of_counts tp fp tn fn = Ok m ->
  (0 < tp)%nat ->
  (f1_score m == 2 * of_int tp / (2 * of_int tp + of_int fp + of_int fn))%Q
  /\ ((f1_score m == 1)%Q <-> fp = 0%nat /\ fn = 0%nat).
Proof.
  intros Hm Htp. destruct (metrics_fields _ _ _ _ _ Hm) as (_ & _ & _ & _ & _ & Hf).
  rewrite f1_score_with_tp in Hf by assumption. injection Hf as <-.
  cbv zeta. rewrite (f1_closed tp fp fn) by assumption.
  pose proof (of_int_pos tp Htp) as Hp. pose proof (of_int_nonneg fp) as Hfp.
  pose proof (of_int_nonneg fn) as Hfn.
  split; [reflexivity |].
  assert (Hden : ~ (2 * of_int tp + of_int fp + of_int fn == 0)%Q) by lra.
  split.
  - intros H1.
    assert (Hs : (2 * of_int tp == 2 * of_int tp + of_int fp + of_int fn)%Q).
    { rewrite <- (Qmult_div_r (2 * of_int tp) (2 * of_int tp + of_int fp + of_int fn))
        at 1 by exact Hden. rewrite H1. lra. }
    assert (Hz : (of_int fp == of_int 0)%Q /\ (of_int fn == of_int 0)%Q)
      by (change (of_int 0) with 0%Q; split; lra).
    destruct Hz as [Hz1 Hz2]. apply of_int_eq in Hz1, Hz2. now split.
  - intros [-> ->]. change (of_int 0) with 0%Q. field. lra.
Qed.

Lemma f1_closed_form_witness :
  exists m, metrics_of_counts 3 1 2 3 = Ok m
    /\ (f1_score m == 2 * of_int 3 / (2 * of_int 3 + of_int 1 + of_int 3))%Q.
Proof.
  eexists. split; [reflexivity |].
  apply (f1_closed_form 3 1 2 3 _ eq_refl). lia.
Defined.

End ClinicalProperties.

Section AlignmentProperties.

Import ClinicalScenarioAnalyzer.

Lemma category_alignment_nonempty (category_data : list result_row) :
  category_data <> [] -> category_alignment category_data = Ok (alignment_of category_data).
Proof.
  intros Hne. unfold category_alignment.
  assert (0 < length category_data)%nat by (destruct category_data; [congruence | simpl; lia]).
  rewrite !truediv_of_int by assumption. reflexivity.
Qed.

Lemma category_alignment_empty : category_alignment [] = Raise ZeroDivisionError.
Proof. reflexivity. Qed.

Lemma alignment_loop_populated (cats : list string) (rows : list result_row)
    (acc : list (string * alignment)) :
  NoDup cats ->
  (forall c, c ∈ cats -> dict_get acc c = None) ->
  (forall c, c ∈ cats -> rows_of c rows <> []) ->
  alignment_loop cats rows acc
  = Ok (acc ++ map (fun c => (c, alignment_of (rows_of c rows))) cats).
Proof.
  revert acc. induction cats as [| c cats IH]; intros acc Hnd Hfresh Hpop.
  - simpl. now rewrite app_nil_r.
  - apply NoDup_cons in Hnd as [Hc Hnd]. cbn [alignment_loop map].
    fold (rows_of c rows). rewrite category_alignment_nonempty by (apply Hpop; left).
    cbn [mbind result_bind].
    rewrite dict_set_fresh by (apply Hfresh; left).
    rewrite IH; [now rewrite <- app_assoc | assumption | |].
    + intros c' Hin. rewrite dict_get_app, Hfresh by now right. cbn [dict_get].
      destruct (String.eqb c c') eqn:E; [| reflexivity].
      apply String.eqb_eq in E. subst. contradiction.
    + intros c' Hin. apply Hpop. now right.
Qed.

Lemma alignment_loop_unpopulated (cats : list string) (rows : list result_row)
    (acc : list (string * alignment)) (c : string) :
  c ∈ cats -> rows_of c rows = [] ->
  alignment_loop cats rows acc = Raise ZeroDivisionError.
Proof.
  revert acc. induction cats as [| c' cats IH]; intros acc Hin Hemp; [inversion Hin |].
  cbn [alignment_loop]. fold (rows_of c' rows).
  destruct (rows_of c' rows) as [| r data] eqn:E; [reflexivity |].
  rewrite category_alignment_nonempty by discriminate. cbn [mbind result_bind].
  apply IH; [| assumption].
  apply elem_of_cons in Hin as [-> | Hin]; [congruence | assumption].
Qed.

Lemma dict_get_tabulate {V : Type} (f : string -> V) (keys : list string) (k : string) :
  dict_get (map (fun c => (c, f c)) keys) k
  = if decide (k ∈ keys) then Some (f k) else None.
Proof.
  induction keys as [| c keys IH].
  - now rewrite decide_False by apply not_elem_of_nil.
  - cbn [map dict_get]. destruct (String.eqb c k) eqn:E.
    + apply String.eqb_eq in E. subst c. now rewrite decide_True by left.
    + apply String.eqb_neq in E. rewrite IH.
      destruct (decide (k ∈ keys)) as [Hin | Hnin].
      * now rewrite decide_True by (now right).
      * rewrite decide_False; [reflexivity |].
        intros [-> | H]%elem_of_cons; [now apply E | now apply Hnin].
Qed.

Lemma filter_length_all {A : Type} (P : A -> Prop) `{forall x, Decision (P x)}
    (l : list A) :
  length (filter P l) = length l <-> forall x, x ∈ l -> P x.
Proof.
  induction l as [| a l IH].
  - split; [intros _ x Hx; inversion Hx | reflexivity].
  - destruct (decide (P a)) as [Ha | Hna].
    + rewrite filter_cons_True by assumption. cbn [length]. split.
      * intros Hlen x [-> | Hx]%elem_of_cons; [assumption |].
        apply IH; [lia | assumption].
      * intros Hall. f_equal. apply IH. intros x Hx. apply Hall. now right.
    + rewrite filter_cons_False by assumption. cbn [length]. split.
      * intros Hlen. pose proof (length_filter P l). lia.
      * intros Hall. exfalso. apply Hna, Hall. left.
Qed.

Lemma count_true_le (col : result_row -> option bool) (data : list result_row) :
  (count_true col data <= length data)%nat.
Proof. apply length_filter. Qed.

(** X8: the alignment analysis needs every one of the four scenario
    categories: on rows where each category occurs it returns one entry per
    category, in the order of the categories; as soon as one category has
    no row its percentage divides by zero and [ZeroDivisionError] is
    raised; on a frame without columns [KeyError] is raised. *)
Theorem alignment_needs_every_category :
  analyze_who_alignment NoColumns = Raise (KeyError "category")
  /\ forall rows : list result_row,
       ((forall c, c ∈ scenario_categories -> exists r, r ∈ rows /\ row_category r = c) ->
        analyze_who_alignment (Rows rows)
        = Ok (map (fun c => (c, alignment_of (rows_of c rows))) scenario_categories))
       /\ ((exists c, c ∈ scenario_categories
                      /\ forall r, r ∈ rows -> row_category r <> c) ->
           analyze_who_alignment (Rows rows) = Raise ZeroDivisionError).
Proof.
  split; [reflexivity |]. intros rows. split.
  - intros Hpop. unfold analyze_who_alignment.
    rewrite alignment_loop_populated; [reflexivity | compute_done | reflexivity |].
    intros c Hc Hemp. destruct (Hpop c Hc) as (r & Hr & Hcat).
    assert (Hin : r ∈ rows_of c rows) by (apply list_elem_of_filter; now split).
    rewrite Hemp in Hin. inversion Hin.
  - intros (c & Hc & Hnone). unfold analyze_who_alignment.
    apply (alignment_loop_unpopulated _ _ _ c Hc).
    destruct (rows_of c rows) as [| r data] eqn:E; [reflexivity |].
    assert (Hin : r ∈ rows_of c rows) by (rewrite E; left).
    apply list_elem_of_filter in Hin as [Hcat Hin]. now apply Hnone in Hin.
Qed.

Lemma alignment_needs_every_category_witness :
  let row c a :=
    {| row_category := c; row_who_aligned := a;
       row_appropriate_recommendation := Some true; row_resource_aware := None |} in
  analyze_who_alignment
    (Rows [row "WHO_IMCI" (Some true); row "Emergency" None])
  = Raise ZeroDivisionError.
Proof.
  intros row.
  destruct alignment_needs_every_category as [_ H].
  apply (H [row "WHO_IMCI" (Some true); row "Emergency" None]).
  exists "Maternal_Health". split; [compute_done |].
  intros r Hin. subst row.
  repeat (apply elem_of_cons in Hin as [-> | Hin]; [cbn; discriminate |]).
  inversion Hin.
Defined.

(** X9: in a returned alignment analysis the entry of a category counts
    the rows of that category only; each of its three counts is at most the
    number of cases, each percentage lies between 0 and 100, and the
    alignment percentage is 100 exactly when every case of the category is
    aligned (a pending case, whose column is [None], is not). *)
Theorem alignment_entry_bounds (rows : list result_row)
    (analysis : list (string * alignment)) (c : string) (a : alignment) :
  analyze_who_alignment (Rows rows) = Ok analysis ->
  dict_get analysis c = Some a ->
  c ∈ scenario_categories
  /\ total_cases a = length (rows_of c rows)
  /\ (1 <= total_cases a <= length rows)%nat
  /\ who_aligned_cases a = count_true row_who_aligned (rows_of c rows)
  /\ (who_aligned_cases a <= total_cases a)%nat
  /\ (appropriate_recommendations a <= total_cases a)%nat
  /\ (resource_aware_cases a <= total_cases a)%nat
  /\ (0 <= alignment_percentage a <= 100)%Q
  /\ (0 <= appropriateness_percentage a <= 100)%Q
  /\ (0 <= resource_awareness_percentage a <= 100)%Q
  /\ ((alignment_percentage a == 100)%Q <->
      forall r, r ∈ rows_of c rows -> row_who_aligned r = Some true).
Proof.
  intros Han Hget.
  assert (Hpop : forall c', c' ∈ scenario_categories -> rows_of c' rows <> []).
  { intros c' Hc' Hemp. unfold analyze_who_alignment in Han.
    rewrite (alignment_loop_unpopulated _ _ _ c' Hc' Hemp) in Han. discriminate. }
  unfold analyze_who_alignment in Han.
  rewrite alignment_loop_populated in Han by (compute_done || reflexivity || assumption).
  assert (Heq : analysis
                = map (fun c => (c, alignment_of (rows_of c rows))) scenario_categories)
    by (cbn [app] in Han; congruence).
  clear Han. subst analysis.
  assert (Hc : c ∈ scenario_categories /\ a = alignment_of (rows_of c rows)).
  { rewrite dict_get_tabulate in Hget.
    destruct (decide (c ∈ scenario_categories)); [| discriminate].
    split; [assumption | congruence]. }
  destruct Hc as [Hc ->]. specialize (Hpop c Hc).
  set (data := rows_of c rows) in *.
  assert (Hlen : (0 < length data)%nat) by (destruct data; [congruence | simpl; lia]).
  assert (Hsub : (length data <= length rows)%nat) by apply length_filter.
  pose proof (count_true_le row_who_aligned data) as H1.
  pose proof (count_true_le row_appropriate_recommendation data) as H2.
  pose proof (count_true_le row_resource_aware data) as H3.
  destruct (percent_bounds _ _ H1 Hlen) as (B1 & F1 & _).
  destruct (percent_bounds _ _ H2 Hlen) as (B2 & _ & _).
  destruct (percent_bounds _ _ H3 Hlen) as (B3 & _ & _).
  cbn. repeat (split; [first [assumption | reflexivity | lia] |]).
  rewrite F1. unfold count_true. apply filter_length_all.
Qed.

Lemma alignment_entry_bounds_witness :
  let row c a :=
    {| row_category := c; row_who_aligned := a;
       row_appropriate_recommendation := Some true; row_resource_aware := None |} in
  let rows := [row "WHO_IMCI" (Some true); row "Emergency" None;
               row "Maternal_Health" (Some false); row "General_Medicine" (Some true);
               row "Emergency" (Some true)] in
  exists analysis a,
    analyze_who_alignment (Rows rows) = Ok analysis
    /\ dict_get analysis "Emergency" = Some a
    /\ total_cases a = 2%nat
    /\ (0 <= alignment_percentage a <= 100)%Q.
Proof.
  intros row rows. do 2 eexists.
  split; [reflexivity |]. split; [reflexivity |].
  split; [reflexivity |].
  eapply (alignment_entry_bounds rows _ "Emergency"); reflexivity.
Defined.

End AlignmentProperties.

Section ScenarioProperties.

Import ClinicalScenarioAnalyzer.

Variables (rng : nat -> nat) (clock : nat -> string).

Lemma category_loop_block (category : string) (t0 : template) (rest : list template)
    (todo i : nat) (scenarios : list scenario) (sid : nat) :
  category_loop rng clock category (t0 :: rest) todo i scenarios sid
  = Ok (scenarios
        ++ map (fun j => scenario_of rng clock category
                           (nth ((i + j) mod length (t0 :: rest)) (t0 :: rest) t0)
                           (sid + j))
               (seq 0 todo),
        (sid + todo)%nat).
Proof.
  revert i scenarios sid. induction todo as [| todo IH]; intros i scenarios sid.
  - cbn [category_loop seq map]. rewrite app_nil_r, Nat.add_0_r. reflexivity.
  - cbn [category_loop cycle mbind result_bind]. rewrite IH.
    f_equal. f_equal; [| lia].
    rewrite <- app_assoc. f_equal. cbn [seq map app]. f_equal.
    + rewrite !Nat.add_0_r. reflexivity.
    + rewrite <- seq_shift, map_map. apply map_ext. intros j.
      replace (S i + j)%nat with (i + S j)%nat by lia.
      replace (S sid + j)%nat with (sid + S j)%nat by lia. reflexivity.
Qed.

Lemma block_length (c : string) (ts : list template) (t0 : template) (count sid : nat) :
  length (block rng clock c ts t0 count sid) = count.
Proof. unfold block. now rewrite length_map, length_seq. Qed.

Lemma map_add_seq (sid a count : nat) :
  map (fun j => sid + j)%nat (seq a count) = seq (sid + a) count.
Proof.
  revert a. induction count as [| count IH]; intros a; [reflexivity |].
  cbn [seq map]. f_equal. rewrite IH. now rewrite Nat.add_succ_r.
Qed.

Lemma block_ids (c : string) (ts : list template) (t0 : template) (count sid : nat) :
  map id (block rng clock c ts t0 count sid) = seq sid count.
Proof.
  unfold block. rewrite map_map. cbn [scenario_of id].
  rewrite map_add_seq. now rewrite Nat.add_0_r.
Qed.

Lemma map_const_repeat {A B : Type} (b : B) (l : list A) :
  map (fun _ => b) l = repeat b (length l).
Proof. induction l as [| a l IH]; [reflexivity |]. cbn. now rewrite IH. Qed.

Lemma block_categories (c : string) (ts : list template) (t0 : template)
    (count sid : nat) :
  map category (block rng clock c ts t0 count sid) = repeat c count.
Proof.
  unfold block. rewrite map_map. cbn [scenario_of category].
  now rewrite map_const_repeat, length_seq.
Qed.

Lemma block_elem (c : string) (ts : list template) (t0 : template) (count sid : nat)
    (sc : scenario) :
  ts <> [] -> sc ∈ block rng clock c ts t0 count sid ->
  exists t, t ∈ ts /\ sc = scenario_of rng clock c t (id sc).
Proof.
  intros Hne Hin. unfold block in Hin.
  apply list_elem_of_fmap in Hin as (j & -> & _).
  exists (nth (j mod length ts) ts t0). split; [| reflexivity].
  apply list_elem_of_In, nth_In, Nat.mod_upper_bound.
  destruct ts; [congruence | discriminate].
Qed.

Lemma create_blocks (count : nat) :
  exists t1 t2 t3 t4 ts1 ts2 ts3 ts4,
    scenario_templates
    = [("WHO_IMCI", ts1); ("Maternal_Health", ts2);
       ("General_Medicine", ts3); ("Emergency", ts4)]
    /\ ts1 <> [] /\ ts2 <> [] /\ ts3 <> [] /\ ts4 <> []
    /\ create_synthetic_scenarios rng clock count
       = Ok (block rng clock "WHO_IMCI" ts1 t1 count 1
             ++ block rng clock "Maternal_Health" ts2 t2 count (1 + count)
             ++ block rng clock "General_Medicine" ts3 t3 count (1 + count + count)
             ++ block rng clock "Emergency" ts4 t4 count (1 + count + count + count)).
Proof.
  unfold create_synthetic_scenarios, scenario_templates.
  do 8 eexists. split; [reflexivity |].
  repeat (split; [discriminate |]).
  cbn [scenario_loop]. rewrite category_loop_block. cbn [mbind result_bind fst snd].
  rewrite category_loop_block. cbn [mbind result_bind fst snd].
  rewrite category_loop_block. cbn [mbind result_bind fst snd].
  rewrite category_loop_block. cbn [mbind result_bind fst snd app].
  rewrite <- !app_assoc. reflexivity.
Qed.

(** X10: for every count per category the generator returns four times
    that many scenarios, numbered 1, 2, 3, ... in order, the categories in
    four consecutive blocks of equal size; every scenario copies the age,
    symptoms and expected protocol of one template of its own category, has
    one of the three resource levels, and takes its level and its date from
    the draw and the clock reading numbered by its id. *)
Theorem synthetic_scenarios_shape (count_per_category : nat) :
  exists scenarios,
    create_synthetic_scenarios rng clock count_per_category = Ok scenarios
    /\ length scenarios = (4 * count_per_category)%nat
    /\ map id scenarios = seq 1 (4 * count_per_category)
    /\ map category scenarios
       = repeat "WHO_IMCI" count_per_category
         ++ repeat "Maternal_Health" count_per_category
         ++ repeat "General_Medicine" count_per_category
         ++ repeat "Emergency" count_per_category
    /\ forall sc, sc ∈ scenarios ->
         resource_level sc ∈ resource_levels
         /\ resource_level sc
            = nth (rng (id sc - 1) mod 3) resource_levels "basic"
         /\ created_at sc = clock (id sc - 1)
         /\ exists templates t,
              (category sc, templates) ∈ scenario_templates
              /\ t ∈ templates
              /\ patient_age sc = age t
              /\ scenario_symptoms sc = symptoms t
              /\ expected_protocol sc = expected t.
Proof.
  destruct (create_blocks count_per_category)
    as (t1 & t2 & t3 & t4 & ts1 & ts2 & ts3 & ts4 & Htab & N1 & N2 & N3 & N4 & Hc).
  eexists. split; [exact Hc |]. split; [| split; [| split]].
  - rewrite !length_app, !block_length. lia.
  - rewrite !map_app, !block_ids.
    replace (4 * count_per_category)%nat
      with (count_per_category
            + (count_per_category + (count_per_category + count_per_category)))%nat
      by lia.
    rewrite !seq_app. repeat f_equal; lia.
  - now rewrite !map_app, !block_categories.
  - intros sc Hin.
    assert (Hsc : exists c ts t, (c, ts) ∈ scenario_templates /\ t ∈ ts
                                 /\ sc = scenario_of rng clock c t (id sc)).
    { rewrite Htab.
      rewrite !elem_of_app in Hin. destruct Hin as [Hin | [Hin | [Hin | Hin]]];
        apply block_elem in Hin as (t & Ht & Hsc); try assumption;
        do 3 eexists; (split; [| split; [exact Ht | exact Hsc]]).
      - left.
      - right; left.
      - right; right; left.
      - right; right; right; left. }
    destruct Hsc as (c & ts & t & Hcts & Ht & Hsc).
    assert (Hlev : resource_level sc
                   = nth (rng (id sc - 1) mod 3) resource_levels "basic")
      by (rewrite Hsc at 1; reflexivity).
    split; [| split; [exact Hlev | split]].
    + rewrite Hlev. apply list_elem_of_In, nth_In.
      apply (Nat.mod_upper_bound _ 3). lia.
    + rewrite Hsc at 1. reflexivity.
    + exists ts, t. rewrite Hsc at 1 2 3 4. cbn. repeat split; assumption.
Qed.

End ScenarioProperties.

Lemma synthetic_scenarios_shape_witness :
  exists scenarios,
    ClinicalScenarioAnalyzer.create_synthetic_scenarios (fun k => k) (fun _ => "now") 2
    = Ok scenarios
    /\ map ClinicalScenarioAnalyzer.id scenarios = seq 1 8
    /\ forall sc, sc ∈ scenarios ->
         ClinicalScenarioAnalyzer.resource_level sc
         ∈ ClinicalScenarioAnalyzer.resource_levels.
Proof.
  destruct (synthetic_scenarios_shape (fun k => k) (fun _ => "now") 2)
    as (scenarios & Hs & _ & Hids & _ & Hall).
  exists scenarios. split; [exact Hs |]. split; [exact Hids |].
  intros sc Hsc. now apply Hall.
Defined.

(** ** Expert evaluation *)

Section ExpertProperties.

Import ExpertEvaluationAnalyzer.

Lemma sus_grade_not_na (x : number) : calculate_sus_grade x <> "N/A".
Proof.
  unfold calculate_sus_grade.
  repeat match goal with
    | |- context [num_ge ?a ?b] => destruct (num_ge a b)
    end; discriminate.
Qed.

(** X11: the usability grade of a mean score s is A iff s >= 85, B iff
    80 <= s < 85, C iff 70 <= s < 80, D iff 50 <= s < 70 and F iff s < 50;
    an undefined mean (NaN) is graded F, and no score is graded 'N/A'. *)
Theorem sus_grade_bands :
  (forall s : Q,
     (calculate_sus_grade (Num s) = "A" <-> (85 <= s)%Q)
     /\ (calculate_sus_grade (Num s) = "B" <-> (80 <= s < 85)%Q)
     /\ (calculate_sus_grade (Num s) = "C" <-> (70 <= s < 80)%Q)
     /\ (calculate_sus_grade (Num s) = "D" <-> (50 <= s < 70)%Q)
     /\ (calculate_sus_grade (Num s) = "F" <-> (s < 50)%Q))
  /\ calculate_sus_grade NaN = "F"
  /\ (forall x : number, calculate_sus_grade x <> "N/A").
Proof.
  split; [| split; [reflexivity |]].
  - intros s. unfold calculate_sus_grade, num_ge, num_le.
    repeat match goal with
      | |- context [Qle_bool ?a ?b] =>
          let E := fresh "E" in
          destruct (Qle_bool a b) eqn:E;
          [apply Qle_bool_iff in E | apply Qle_bool_false in E]
      end;
      repeat split; intros; try discriminate; try reflexivity; lra.
  - apply sus_grade_not_na.
Qed.

Lemma keyword_loop_examples (keywords : list string) (c cl : string) (r : theme_result) :
  examples (keyword_loop keywords c cl r)
  = if existsb (fun keyword => contains keyword cl) keywords
    then (if (length (examples r) <? 3)%nat
          then examples r ++ [example_of c] else examples r)
    else examples r.
Proof.
  induction keywords as [| k keywords IH]; [reflexivity |].
  cbn [keyword_loop existsb]. destruct (contains k cl); [reflexivity | exact IH].
Qed.

Lemma tagged_texts_cons (keywords : list string) (c : comment) (cs : list comment) :
  tagged_texts keywords (c :: cs)
  = match c with
    | Text s => if tagged keywords c then s :: tagged_texts keywords cs
                else tagged_texts keywords cs
    | Other => tagged_texts keywords cs
    end.
Proof.
  unfold tagged_texts. cbn [omap list_omap].
  destruct c as [s |]; [| reflexivity]. now destruct (tagged keywords (Text s)).
Qed.

Lemma comment_loop_examples (keywords : list string) (comments : list comment)
    (r : theme_result) :
  (length (examples r) <= 3)%nat ->
  examples (comment_loop keywords comments r)
  = take 3 (examples r ++ map example_of (tagged_texts keywords comments)).
Proof.
  revert r. induction comments as [| c comments IH]; intros r Hr.
  - cbn [comment_loop tagged_texts omap list_omap map]. rewrite app_nil_r.
    now rewrite take_ge by lia.
  - rewrite comment_loop_cons, tagged_texts_cons.
    destruct c as [[| a s] |]; cbn [comment_loop]; try (now apply IH).
    assert (Hex := keyword_loop_examples keywords (String a s) (lower (String a s)) r).
    cbn [tagged].
    destruct (existsb (fun keyword => contains keyword (lower (String a s))) keywords).
    + destruct (length (examples r) <? 3)%nat eqn:E.
      * apply Nat.ltb_lt in E. rewrite IH by (rewrite Hex, length_app; simpl; lia).
        rewrite Hex, <- app_assoc. reflexivity.
      * apply Nat.ltb_ge in E. rewrite IH by (rewrite Hex; lia). rewrite Hex.
        rewrite !take_app_le by lia. reflexivity.
    + rewrite IH by (rewrite Hex; lia). now rewrite Hex.
Qed.

Lemma string_length_app (s t : string) :
  String.length (s +:+ t) = (String.length s + String.length t)%nat.
Proof.
  induction s as [| a s IH]; [reflexivity |].
  change (S (String.length (s +:+ t)) = S (String.length s + String.length t)).
  now rewrite IH.
Qed.

Lemma substring_length_le (n : nat) (s : string) :
  (String.length (String.substring 0 n s) <= n)%nat.
Proof.
  revert s. induction n as [| n IH]; intros s.
  - destruct s; cbn; lia.
  - destruct s as [| a s]; cbn; [lia |]. specialize (IH s). lia.
Qed.

(** X12: the examples of a theme are the first three tagged comments in
    encounter order, each cut to its first 100 characters and followed by
    an ellipsis; so there are min(3, mentions) of them and none is longer
    than 103 characters. *)
Theorem examples_are_first_three_tagged
    (comments_data : list comment) (theme : string) (keywords : list string) :
  (theme, keywords) ∈ themes ->
  exists r,
    dict_get (perform_thematic_analysis comments_data) theme = Some r
    /\ examples r = map example_of (take 3 (tagged_texts keywords comments_data))
    /\ length (examples r) = Nat.min 3 (mentions r)
    /\ forall e, e ∈ examples r -> (String.length e <= 103)%nat.
Proof.
  intros Hin.
  exists (comment_loop keywords comments_data {| mentions := 0; examples := [] |}).
  assert (Hex : examples (comment_loop keywords comments_data
                            {| mentions := 0; examples := [] |})
                = map example_of (take 3 (tagged_texts keywords comments_data))).
  { rewrite comment_loop_examples by (simpl; lia). cbn [examples app].
    now rewrite fmap_take. }
  split; [| split; [exact Hex | split]].
  - rewrite thematic_results_shape. unfold themes in *.
    repeat (apply elem_of_cons in Hin as [Heq | Hin];
            [injection Heq as -> ->; reflexivity |]).
    inversion Hin.
  - rewrite Hex, length_map, length_take, comment_loop_mentions. cbn [mentions].
    f_equal. clear. unfold tagged_texts.
    induction comments_data as [| c cs IH]; [reflexivity |].
    cbn [omap list_omap List.filter].
    destruct c as [s |]; [| cbn; exact IH].
    destruct (tagged keywords (Text s)); cbn; now rewrite IH.
  - intros e He. rewrite Hex in He.
    apply list_elem_of_fmap in He as (s & -> & _).
    unfold example_of. rewrite string_length_app. cbn.
    pose proof (substring_length_le 100 s). lia.
Qed.

Lemma examples_are_first_three_tagged_witness :
  exists r,
    dict_get (perform_thematic_analysis
                [Text "Easy"; Text "so EASY"; Other; Text "simple"; Text "too complex"])
             "usability" = Some r
    /\ examples r = ["Easy..."; "so EASY..."; "simple..."].
Proof.
  destruct (examples_are_first_three_tagged
              [Text "Easy"; Text "so EASY"; Other; Text "simple"; Text "too complex"]
              "usability"
              ["easy"; "intuitive"; "user-friendly"; "simple"; "complex"; "difficult"])
    as (r & Hr & Hex & _); [compute_done |].
  exists r. split; [exact Hr |]. rewrite Hex. reflexivity.
Defined.

Lemma comment_loop_skips (keywords : list string) (comments : list comment)
    (r : theme_result) :
  comment_loop keywords (List.filter is_text comments) r
  = comment_loop keywords comments r.
Proof.
  revert r. induction comments as [| c comments IH]; intros r; [reflexivity |].
  destruct c as [[| a s] |]; cbn [List.filter is_text]; apply IH.
Qed.

(** X13: the result always lists the six themes in the order of the
    taxonomy, and comments that are not strings, or are the empty string,
    are skipped: removing them does not change the result.  Without any
    comment every theme has no mention and no example. *)
Theorem non_text_comments_are_skipped (comments_data : list comment) :
  map fst (perform_thematic_analysis comments_data) = map fst themes
  /\ perform_thematic_analysis (List.filter is_text comments_data)
     = perform_thematic_analysis comments_data
  /\ (List.filter is_text comments_data = [] ->
      perform_thematic_analysis comments_data
      = map (fun th => (th.1, {| mentions := 0; examples := [] |})) themes).
Proof.
  rewrite !thematic_results_shape. split; [| split].
  - now rewrite map_map.
  - apply map_ext. intros th. now rewrite comment_loop_skips.
  - intros Hnone. apply map_ext. intros th.
    now rewrite <- comment_loop_skips, Hnone.
Qed.

Lemma non_text_comments_are_skipped_witness :
  perform_thematic_analysis [Other; Text ""; Other]
  = map (fun th => (th.1, {| mentions := 0; examples := [] |})) themes.
Proof.
  destruct (non_text_comments_are_skipped [Other; Text ""; Other]) as (_ & _ & H).
  apply H. reflexivity.
Defined.

(** X14: the survey template is never returned: building its first inner
    dict evaluates [True/False], the division of 1 by 0, which raises
    [ZeroDivisionError]. *)
Theorem survey_template_raises :
  create_expert_survey_template = Raise ZeroDivisionError.
Proof. reflexivity. Qed.

Lemma numerics_no_text (s : list value) :
  no_text s = true -> exists qs, numerics s = Ok qs.
Proof.
  induction s as [| v s IH]; intros H; [now exists [] |].
  cbn [no_text forallb] in H. apply andb_true_iff in H as [Hv Hs].
  destruct (IH Hs) as [qs Hqs]. cbn [numerics]. rewrite Hqs.
  destruct v; try discriminate; eexists; reflexivity.
Qed.

Lemma numerics_text (s : list value) (t : string) :
  Str t ∈ s -> numerics s = Raise TypeError.
Proof.
  induction s as [| v s IH]; intros Hin; [inversion Hin |].
  apply elem_of_cons in Hin as [<- | Hin]; [reflexivity |].
  cbn [numerics]. rewrite (IH Hin). now destruct v.
Qed.

Lemma count_above_no_text (bound : Q) (s : list value) :
  no_text s = true -> exists n, count_above bound s = Ok n /\ (n <= length s)%nat.
Proof.
  induction s as [| v s IH]; intros H; [exists 0%nat; split; [reflexivity | simpl; lia] |].
  cbn [no_text forallb] in H. apply andb_true_iff in H as [Hv Hs].
  destruct (IH Hs) as (n & Hn & Hle). cbn [count_above]. rewrite Hn.
  destruct v as [t | q | b |]; try discriminate; cbn [numeric mbind result_bind].
  - destruct (gt q bound); eexists; (split; [reflexivity | simpl; lia]).
  - destruct (gt (if b then 1 else 0)%Q bound); eexists;
      (split; [reflexivity | simpl; lia]).
  - eexists; (split; [reflexivity | simpl; lia]).
Qed.

Lemma column_length (df : DataFrame) (name : string) (s : list value) :
  well_formed df -> dict_get (columns df) name = Some s -> length s = index_len df.
Proof.
  unfold well_formed. intros Hwf.
  induction (columns df) as [| [k c] cols IH]; [discriminate |].
  apply Forall_cons in Hwf as [Hc Hwf]. cbn [dict_get].
  destruct (String.eqb k name); [intros [= <-]; exact Hc | now apply IH].
Qed.

(** X15: on a non-empty, rectangular frame the analysis returns when the
    columns it averages hold no string: it reports as many experts as the
    frame has rows, grades 'N/A' exactly when the usability column is
    missing, and gives a share of scores above 70 between 0 and 100.  A
    string in the years of experience makes it raise [TypeError]. *)
Theorem survey_analysis_of_numeric_frame (sqrt : Q -> Q) (df : DataFrame) :
  empty df = false ->
  ((forall t, Str t ∈ get df "years_experience" ->
      analyze_expert_responses sqrt df = Raise TypeError)
   /\ (well_formed df ->
       no_text (get df "years_experience") = true ->
       no_text (get df "resource_limited_experience") = true ->
       no_text (get df sus_column) = true ->
       exists a,
         analyze_expert_responses sqrt df = Ok a
         /\ total_experts (a_response_summary a) = index_len df
         /\ (1 <= total_experts (a_response_summary a))%nat
         /\ (sus_grade (a_sus_analysis a) = "N/A"
             <-> dict_get (columns df) sus_column = None)
         /\ (0 <= above_average (a_sus_analysis a) <= 100)%Q)).
Proof.
  intros Hempty. unfold analyze_expert_responses. rewrite Hempty.
  unfold empty in Hempty. apply orb_false_iff in Hempty as [Hrows _].
  apply Nat.eqb_neq in Hrows.
  split.
  - intros t Ht. unfold series_mean. now rewrite (numerics_text _ t Ht).
  - intros Hwf Hy Hr Hs.
    destruct (numerics_no_text _ Hy) as [ys Hys].
    destruct (numerics_no_text _ Hr) as [rs Hrs].
    unfold series_mean. rewrite Hys. cbn [mbind result_bind].
    assert (Hpos : (0 <? index_len df)%nat = true) by (apply Nat.ltb_lt; lia).
    rewrite Hpos. unfold series_sum. rewrite Hrs. cbn [mbind result_bind].
    rewrite truediv_of_int by lia. cbn [mbind result_bind].
    unfold get in Hs.
    destruct (dict_get (columns df) sus_column) as [sus |] eqn:Esus.
    + change (no_text sus = true) in Hs.
      destruct (numerics_no_text _ Hs) as [qs Hqs].
      destruct (count_above_no_text 70 _ Hs) as (n & Hn & Hle).
      pose proof (column_length df _ _ Hwf Esus) as Hlen.
      unfold series_std. rewrite Hqs, Hn. cbn [mbind result_bind].
      rewrite truediv_of_int by lia. cbn [mbind result_bind].
      eexists. split; [reflexivity |]. cbn.
      split; [reflexivity |]. split; [lia |]. split.
      * split; [intros H; now apply sus_grade_not_na in H | discriminate].
      * apply percent_bounds; lia.
    + eexists. split; [reflexivity |]. cbn.
      split; [reflexivity |]. split; [lia |]. split; [tauto | lra].
Qed.

Lemma survey_analysis_of_numeric_frame_witness :
  let df := {| index_len := 2;
               columns := [("expert_type", [Str "Clinical"; Str "Clinical"]);
                           ("years_experience", [Float 3; NA]);
                           (sus_column, [Float 72; Float 90])] |} in
  exists a,
    analyze_expert_responses (fun q => q) df = Ok a
    /\ total_experts (a_response_summary a) = 2%nat
    /\ (0 <= above_average (a_sus_analysis a) <= 100)%Q.
Proof.
  intros df.
  destruct (survey_analysis_of_numeric_frame (fun q => q) df eq_refl) as [_ H].
  destruct H as (a & Ha & Hn & _ & _ & Hb);
    [repeat constructor | reflexivity | reflexivity | reflexivity |].
  exists a. split; [exact Ha |]. split; [exact Hn | exact Hb].
Defined.

End ExpertProperties.

(** ** Framework report *)

Section FrameworkProperties.

Import FrameworkAssessmentAnalyzer.

(** X16: improving the overall scores never lowers the decision: with a
    complexity that is not higher and a readiness that is not lower, the
    decision ranks at least as high (ready above ready with modifications
    above requires development). *)
Theorem decision_is_monotone
    (nasss_analysis reaim_analysis nasss_analysis' reaim_analysis'
       : list (string * scored))
    (n r n' r' : scored) (d d' : string) :
  dict_get nasss_analysis "overall" = Some n ->
  dict_get reaim_analysis "overall" = Some r ->
  dict_get nasss_analysis' "overall" = Some n' ->
  dict_get reaim_analysis' "overall" = Some r' ->
  num_leP (score n') (score n) ->
  num_leP (score r) (score r') ->
  make_readiness_decision nasss_analysis reaim_analysis = Ok d ->
  make_readiness_decision nasss_analysis' reaim_analysis' = Ok d' ->
  (rank d <= rank d')%nat.
Proof.
  intros Hn Hr Hn' Hr' Hc Hq. unfold make_readiness_decision, dict_item.
  rewrite Hn, Hr, Hn', Hr'. cbn [mbind result_bind].
  destruct (score n) as [c |], (score n') as [c' |]; try contradiction.
  destruct (score r) as [q |], (score r') as [q' |]; try contradiction.
  cbn [num_leP] in Hc, Hq. unfold num_ge, num_le.
  intros [= <-] [= <-].
  repeat match goal with
    | |- context [Qle_bool ?a ?b] =>
        let E := fresh "E" in
        destruct (Qle_bool a b) eqn:E;
        [apply Qle_bool_iff in E | apply Qle_bool_false in E]
    end; cbn; try lia; lra.
Qed.

Lemma decision_is_monotone_witness :
  let overall (s : Q) := [("overall", {| score := Num s; level := "" |})] in
  exists d d',
    make_readiness_decision (overall 3.5%Q) (overall 5%Q) = Ok d
    /\ make_readiness_decision (overall 3%Q) (overall 6%Q) = Ok d'
    /\ (rank d <= rank d')%nat.
Proof.
  intros overall. do 2 eexists.
  split; [reflexivity |]. split; [reflexivity |].
  apply (decision_is_monotone (overall 3.5%Q) (overall 5%Q) (overall 3%Q) (overall 6%Q)
           _ _ _ _ _ _ eq_refl eq_refl eq_refl eq_refl);
    [cbn; lra | cbn; lra | reflexivity | reflexivity].
Defined.

Lemma decision_of_scorers_eq (nasss_data reaim_data : gmap string Q) :
  make_readiness_decision (calculate_nasss_scores nasss_data)
                          (calculate_reaim_scores reaim_data)
  = Ok (let c := np_mean (map (fun kv => score kv.2)
                            (score_loop get_nasss_complexity_level nasss_domains
                               nasss_data [])) in
        let r := np_mean (map (fun kv => score kv.2)
                            (score_loop get_reaim_readiness_level reaim_dimensions
                               reaim_data [])) in
        if num_le c (Num 3) && num_ge r (Num 6)
        then "Ready for pilot implementation"
        else if num_le c (Num 4) && num_ge r (Num 4)
        then "Ready with modifications"
        else "Requires significant development before implementation").
Proof.
  unfold make_readiness_decision, dict_item, calculate_nasss_scores,
    calculate_reaim_scores.
  rewrite !scorer_overall. reflexivity.
Qed.

Lemma decision_of_scorers (nasss_data reaim_data : gmap string Q) :
  exists d,
    make_readiness_decision (calculate_nasss_scores nasss_data)
                            (calculate_reaim_scores reaim_data) = Ok d.
Proof. rewrite decision_of_scorers_eq. eexists. reflexivity. Qed.

(** X17: the decision reads the ['overall'] entry of both analyses and
    raises [KeyError] when one is missing, the complexity analysis being
    read first; the framework report, which builds both analyses with the
    scorers, is therefore always returned, and its decision is the one made
    from the two assessments. *)
Theorem decision_needs_overall_entries :
  (forall nasss_analysis reaim_analysis : list (string * scored),
     dict_get nasss_analysis "overall" = None ->
     make_readiness_decision nasss_analysis reaim_analysis = Raise (KeyError "overall"))
  /\ (forall (nasss_analysis reaim_analysis : list (string * scored)) (n : scored),
        dict_get nasss_analysis "overall" = Some n ->
        dict_get reaim_analysis "overall" = None ->
        make_readiness_decision nasss_analysis reaim_analysis
        = Raise (KeyError "overall"))
  /\ (forall (now : string) (nasss_data reaim_data : gmap string Q),
        exists rep,
          generate_framework_report now nasss_data reaim_data = Ok rep
          /\ nasss_assessment rep = calculate_nasss_scores nasss_data
          /\ reaim_assessment rep = calculate_reaim_scores reaim_data
          /\ readiness_decision nasss_data reaim_data
             = Ok (report_readiness_decision rep)).
Proof.
  split; [| split].
  - intros na ra H. unfold make_readiness_decision, dict_item. now rewrite H.
  - intros na ra n Hn H. unfold make_readiness_decision, dict_item. now rewrite Hn, H.
  - intros now nd rd. unfold generate_framework_report, readiness_decision.
    destruct (decision_of_scorers nd rd) as [d Hd]. rewrite Hd.
    eexists. split; [reflexivity |]. split; [reflexivity |]. split; reflexivity.
Qed.

Lemma decision_needs_overall_entries_witness :
  make_readiness_decision [] [("overall", {| score := Num 7; level := "" |})]
  = Raise (KeyError "overall").
Proof.
  destruct decision_needs_overall_entries as (H & _).
  apply H. reflexivity.
Defined.

(** X18: an assessment without any name of its vocabulary has an
    undefined overall score, and then the decision is that the system
    requires significant development, whatever the other assessment
    holds. *)
Theorem empty_assessment_requires_development
    (now : string) (nasss_data reaim_data : gmap string Q) :
  (forall name, name ∈ nasss_domains -> nasss_data !! name = None)
  \/ (forall name, name ∈ reaim_dimensions -> reaim_data !! name = None) ->
  exists rep,
    generate_framework_report now nasss_data reaim_data = Ok rep
    /\ report_readiness_decision rep
       = "Requires significant development before implementation".
Proof.
  intros Habs. unfold generate_framework_report.
  rewrite decision_of_scorers_eq. cbn [mbind result_bind].
  eexists. split; [reflexivity |]. cbn [report_readiness_decision].
  destruct Habs as [Hn | Hr].
  - rewrite (score_loop_absent _ nasss_domains) by assumption. reflexivity.
  - rewrite (score_loop_absent _ reaim_dimensions) by assumption.
    cbn [map]. change (np_mean []) with NaN. cbv zeta. cbn [num_ge num_le].
    now rewrite !andb_false_r.
Qed.

Lemma empty_assessment_requires_development_witness :
  exists rep,
    generate_framework_report "now" ∅ (<["reach" := 9%Q]> ∅) = Ok rep
    /\ report_readiness_decision rep
       = "Requires significant development before implementation".
Proof.
  apply (empty_assessment_requires_development "now" ∅ (<["reach" := 9%Q]> ∅)).
  left. intros name _. apply lookup_empty.
Defined.






Lemma recommend_loop_filter (flagged : number -> bool) (message : string -> string)
    (analysis : list (string * scored)) (recommendations : list string) :
  recommend_loop flagged message analysis recommendations
  = recommendations
    ++ map message
         (map fst (List.filter
                     (fun kv => negb (String.eqb kv.1 "overall") && flagged (score kv.2))
                     analysis)).
Proof.
  revert recommendations. induction analysis as [| [name e] analysis IH];
    intros recommendations.
  - cbn. now rewrite app_nil_r.
  - cbn [recommend_loop List.filter fst snd]. rewrite IH.
    destruct (negb (String.eqb name "overall") && flagged (score e)).
    + cbn [map fst]. now rewrite <- app_assoc.
    + reflexivity.
Qed.

Lemma flagged_present (flagged : number -> bool) (level_of : number -> string)
    (names : list string) (data : gmap string Q) :
  "overall" ∉ names ->
  map fst (List.filter
             (fun kv => negb (String.eqb kv.1 "overall") && flagged (score kv.2))
             (map (fun kv => (kv.1, entry level_of kv.2)) (present names data)))
  = List.filter (flagged_in (fun s => flagged (Num s)) data) names.
Proof.
  induction names as [| a names IH]; intros Hov; [reflexivity |].
  apply not_elem_of_cons in Hov as [Ha Hov].
  rewrite present_cons. cbn [List.filter]. unfold flagged_in at 1.
  destruct (data !! a) as [s |] eqn:E.
  - cbn [map List.filter fst snd entry score].
    assert (Hb : String.eqb a "overall" = false)
      by (apply String.eqb_neq; congruence).
    rewrite Hb. cbn [negb andb].
    destruct (flagged (Num s)); cbn [map fst]; now rewrite IH.
  - now apply IH.
Qed.

Lemma filter_length_le_bool {A : Type} (f : A -> bool) (l : list A) :
  (length (List.filter f l) <= length l)%nat.
Proof. apply List.filter_length_le. Qed.

(** X20: the recommendations of a framework report are one message for
    every complexity domain present with a score of at least 4, in the
    order of the domains, followed by one message for every readiness
    dimension present with a score of at most 4, in the order of the
    dimensions; the ['overall'] entries never give a message, and there are
    at most twelve messages. *)
Theorem recommendations_flag_present_entries
    (now : string) (nasss_data reaim_data : gmap string Q) :
  exists rep,
    generate_framework_report now nasss_data reaim_data = Ok rep
    /\ implementation_recommendations rep
       = map nasss_message
           (List.filter (flagged_in (fun s => Qle_bool 4 s) nasss_data) nasss_domains)
         ++ map reaim_message
              (List.filter (flagged_in (fun s => Qle_bool s 4) reaim_data)
                           reaim_dimensions)
    /\ (length (implementation_recommendations rep) <= 12)%nat.
Proof.
  unfold generate_framework_report.
  destruct (decision_of_scorers nasss_data reaim_data) as [d Hd]. rewrite Hd.
  cbn [mbind result_bind]. eexists. split; [reflexivity |].
  cbn [implementation_recommendations].
  assert (Hrec : generate_implementation_recommendations
                   (calculate_nasss_scores nasss_data)
                   (calculate_reaim_scores reaim_data)
                 = map nasss_message
                     (List.filter (flagged_in (fun s => Qle_bool 4 s) nasss_data)
                                  nasss_domains)
                   ++ map reaim_message
                        (List.filter (flagged_in (fun s => Qle_bool s 4) reaim_data)
                                     reaim_dimensions)).
  { destruct nasss_domains_nodup as [Hnd1 Hov1].
    destruct reaim_dimensions_nodup as [Hnd2 Hov2].
    unfold generate_implementation_recommendations, calculate_nasss_scores,
      calculate_reaim_scores.
    rewrite !recommend_loop_filter, !with_overall_present by assumption.
    rewrite !List.filter_app. cbn [List.filter fst snd String.eqb].
    rewrite !map_app.
    change (negb (String.eqb "overall" "overall")) with false.
    cbn [andb map fst app]. rewrite !app_nil_r.
    rewrite (flagged_present (fun s => num_ge s (Num 4))) by assumption.
    rewrite (flagged_present (fun s => num_le s (Num 4))) by assumption.
    reflexivity. }
  rewrite Hrec. split; [reflexivity |].
  rewrite length_app, !length_map.
  pose proof (filter_length_le_bool
                (flagged_in (fun s => Qle_bool 4 s) nasss_data) nasss_domains) as H1.
  pose proof (filter_length_le_bool
                (flagged_in (fun s => Qle_bool s 4) reaim_data) reaim_dimensions) as H2.
  change (length nasss_domains) with 7%nat in H1.
  change (length reaim_dimensions) with 5%nat in H2. lia.
Qed.

End FrameworkProperties.

(** ** The integrated report *)

Section IntegratedProperties.

Import ATLASIntegratedAnalyzer.

Variables (url : string) (clock : nat -> string) (sqrt : Q -> Q).

Lemma performance_report_cases (now : string) (metrics_data : gmap string Q) :
  ((forall metric, metric ∈ ATLASPerformanceAnalyzer.targets.*1 ->
      metrics_data !! metric = None) ->
   ATLASPerformanceAnalyzer.generate_performance_report url now metrics_data
   = Raise ZeroDivisionError)
  /\ ((exists metric, metric ∈ ATLASPerformanceAnalyzer.targets.*1
                      /\ is_Some (metrics_data !! metric)) ->
      exists rep,
        ATLASPerformanceAnalyzer.generate_performance_report url now metrics_data
        = Ok rep).
Proof.
  unfold ATLASPerformanceAnalyzer.generate_performance_report.
  rewrite analyze_recognized. cbn [mbind result_bind]. split.
  - intros Habs. rewrite recognized_nil by assumption. reflexivity.
  - intros (metric & Hin & Hsome).
    assert (Hne : recognized ATLASPerformanceAnalyzer.targets metrics_data <> [])
      by now apply (recognized_some _ _ metric).
    rewrite truediv_of_int.
    + eexists. reflexivity.
    + destruct (recognized ATLASPerformanceAnalyzer.targets metrics_data);
        [congruence | simpl; lia].
Qed.

(** X21: the integrated report evaluates its sections in order and stops
    at the first that raises.  Without performance metrics, or with none of
    a target name, it raises [ZeroDivisionError] whatever the other data
    hold; with recognized metrics but without clinical results (or with the
    frame that has no column) it raises [KeyError]. *)
Theorem comprehensive_report_failures (data : all_data) :
  ((forall metric, metric ∈ ATLASPerformanceAnalyzer.targets.*1 ->
      default ∅ (performance_metrics data) !! metric = None) ->
   generate_comprehensive_report url clock sqrt data = Raise ZeroDivisionError)
  /\ ((exists metric, metric ∈ ATLASPerformanceAnalyzer.targets.*1
                      /\ is_Some (default ∅ (performance_metrics data) !! metric)) ->
      default ClinicalScenarioAnalyzer.NoColumns (clinical_results data)
      = ClinicalScenarioAnalyzer.NoColumns ->
      generate_comprehensive_report url clock sqrt data
      = Raise (KeyError "category")).
Proof.
  unfold generate_comprehensive_report. split.
  - intros Habs.
    destruct (performance_report_cases (clock 1%nat)
                (default ∅ (performance_metrics data))) as [Hfail _].
    now rewrite (Hfail Habs).
  - intros Hrec Hclin.
    destruct (performance_report_cases (clock 1%nat)
                (default ∅ (performance_metrics data))) as [_ Hok].
    destruct (Hok Hrec) as [rep Hrep]. rewrite Hrep, Hclin. reflexivity.
Qed.

(** X22: with a recognized performance metric, clinical rows in each of
    the four categories and no expert responses (the key missing or the
    frame empty), the integrated report is returned.  Its expert section is
    the placeholder, so usability is never listed as an achievement: the
    achievements are the technical one exactly when the overall technical
    score is at least 75, the limitations and priorities are empty, and the
    framework decision it records is the decision of its framework
    section. *)
Theorem comprehensive_report_without_experts
    (data : all_data) (rows : list ClinicalScenarioAnalyzer.result_row) :
  (exists metric, metric ∈ ATLASPerformanceAnalyzer.targets.*1
                  /\ is_Some (default ∅ (performance_metrics data) !! metric)) ->
  clinical_results data = Some (ClinicalScenarioAnalyzer.Rows rows) ->
  (forall c, c ∈ ClinicalScenarioAnalyzer.scenario_categories ->
             exists r, r ∈ rows /\ ClinicalScenarioAnalyzer.row_category r = c) ->
  ExpertEvaluationAnalyzer.empty
    (default {| ExpertEvaluationAnalyzer.index_len := 0;
                ExpertEvaluationAnalyzer.columns := [] |}
             (expert_responses data)) = true ->
  exists rep,
    generate_comprehensive_report url clock sqrt data = Ok rep
    /\ expert_evaluation (report_sections rep) = ExpertEvaluationAnalyzer.placeholder
    /\ key_achievements (integrated_conclusions rep)
       = (if Qle_bool 75
               (ATLASPerformanceAnalyzer.overall_score
                  (ATLASPerformanceAnalyzer.report_summary
                     (technical_performance (report_sections rep))))
          then [technical_achievement] else [])
    /\ primary_limitations (integrated_conclusions rep) = []
    /\ future_priorities (integrated_conclusions rep) = []
    /\ readiness_indicators (integrated_conclusions rep)
       = [("framework_decision",
           FrameworkAssessmentAnalyzer.report_readiness_decision
             (framework_assessment (report_sections rep)))]
    /\ FrameworkAssessmentAnalyzer.readiness_decision
         (default ∅ (nasss_data data)) (default ∅ (reaim_data data))
       = Ok (FrameworkAssessmentAnalyzer.report_readiness_decision
               (framework_assessment (report_sections rep))).
Proof.
  intros Hrec Hclin Hpop Hexp. unfold generate_comprehensive_report.
  destruct (performance_report_cases (clock 1%nat)
              (default ∅ (performance_metrics data))) as [_ Hok].
  destruct (Hok Hrec) as [tech Htech]. rewrite Htech, Hclin.
  change (default ClinicalScenarioAnalyzer.NoColumns
            (Some (ClinicalScenarioAnalyzer.Rows rows)))
    with (ClinicalScenarioAnalyzer.Rows rows).
  cbn [mbind result_bind].
  destruct (ClinicalScenarioAnalyzer.analyze_who_alignment
              (ClinicalScenarioAnalyzer.Rows rows)) as [clin | e] eqn:Eclin.
  2:{ unfold ClinicalScenarioAnalyzer.analyze_who_alignment in Eclin.
      rewrite alignment_loop_populated in Eclin;
        [discriminate | compute_done | reflexivity |].
      intros c Hc Hemp. destruct (Hpop c Hc) as (r & Hr & Hcat).
      assert (Hin : r ∈ rows_of c rows) by (apply list_elem_of_filter; now split).
      rewrite Hemp in Hin. inversion Hin. }
  cbn [mbind result_bind].
  unfold ExpertEvaluationAnalyzer.analyze_expert_responses. rewrite Hexp.
  cbn [mbind result_bind].
  unfold FrameworkAssessmentAnalyzer.generate_framework_report,
    FrameworkAssessmentAnalyzer.readiness_decision.
  destruct (decision_of_scorers (default ∅ (nasss_data data))
              (default ∅ (reaim_data data))) as [d Hd].
  rewrite Hd. cbn [mbind result_bind].
  eexists. split; [reflexivity |]. cbn.
  split; [reflexivity |]. split; [| repeat split].
  unfold ge. now destruct (Qle_bool 75 _).
Qed.

End IntegratedProperties.

Section IntegratedExamples.

Import ATLASIntegratedAnalyzer.

Let sample_row (c : string) : ClinicalScenarioAnalyzer.result_row :=
  {| ClinicalScenarioAnalyzer.row_category := c;
     ClinicalScenarioAnalyzer.row_who_aligned := Some true;
     ClinicalScenarioAnalyzer.row_appropriate_recommendation := Some false;
     ClinicalScenarioAnalyzer.row_resource_aware := None |}.

Lemma comprehensive_report_failures_witness :
  generate_comprehensive_report "app" (fun _ => "now") (fun q => q)
    {| performance_metrics := None;
       clinical_results := None;
       expert_responses := None;
       nasss_data := Some (<["technology" := 2%Q]> ∅);
       reaim_data := Some (<["reach" := 8%Q]> ∅) |}
  = Raise ZeroDivisionError
  /\ generate_comprehensive_report "app" (fun _ => "now") (fun q => q)
       {| performance_metrics := Some (<["pwa_score" := 95%Q]> ∅);
          clinical_results := None;
          expert_responses := None;
          nasss_data := None;
          reaim_data := None |}
     = Raise (KeyError "category").
Proof.
  split.
  - destruct (comprehensive_report_failures "app" (fun _ => "now") (fun q => q)
                {| performance_metrics := None;
                   clinical_results := None;
                   expert_responses := None;
                   nasss_data := Some (<["technology" := 2%Q]> ∅);
                   reaim_data := Some (<["reach" := 8%Q]> ∅) |}) as [H _].
    apply H. intros metric _. apply lookup_empty.
  - destruct (comprehensive_report_failures "app" (fun _ => "now") (fun q => q)
                {| performance_metrics := Some (<["pwa_score" := 95%Q]> ∅);
                   clinical_results := None;
                   expert_responses := None;
                   nasss_data := None;
                   reaim_data := None |}) as [_ H].
    apply H; [| reflexivity].
    exists "pwa_score". split; [compute_done | now exists 95%Q].
Defined.

Lemma comprehensive_report_without_experts_witness :
  exists rep,
    generate_comprehensive_report "app" (fun _ => "now") (fun q => q)
      {| performance_metrics := Some (<["pwa_score" := 95%Q]> ∅);
         clinical_results :=
           Some (ClinicalScenarioAnalyzer.Rows
                   [ {| ClinicalScenarioAnalyzer.row_category := "WHO_IMCI";
                        ClinicalScenarioAnalyzer.row_who_aligned := Some true;
                        ClinicalScenarioAnalyzer.row_appropriate_recommendation :=
                          Some false;
                        ClinicalScenarioAnalyzer.row_resource_aware := None |};
                     {| ClinicalScenarioAnalyzer.row_category := "Maternal_Health";
                        ClinicalScenarioAnalyzer.row_who_aligned := Some true;
                        ClinicalScenarioAnalyzer.row_appropriate_recommendation :=
                          Some false;
                        ClinicalScenarioAnalyzer.row_resource_aware := None |};
                     {| ClinicalScenarioAnalyzer.row_category := "General_Medicine";
                        ClinicalScenarioAnalyzer.row_who_aligned := Some true;
                        ClinicalScenarioAnalyzer.row_appropriate_recommendation :=
                          Some false;
                        ClinicalScenarioAnalyzer.row_resource_aware := None |};
                     {| ClinicalScenarioAnalyzer.row_category := "Emergency";
                        ClinicalScenarioAnalyzer.row_who_aligned := Some true;
                        ClinicalScenarioAnalyzer.row_appropriate_recommendation :=
                          Some false;
                        ClinicalScenarioAnalyzer.row_resource_aware := None |} ]);
         expert_responses := None;
         nasss_data := None;
         reaim_data := None |} = Ok rep
    /\ key_achievements (integrated_conclusions rep) = [technical_achievement].
Proof.
  destruct (comprehensive_report_without_experts "app" (fun _ => "now") (fun q => q)
              {| performance_metrics := Some (<["pwa_score" := 95%Q]> ∅);
                 clinical_results :=
                   Some (ClinicalScenarioAnalyzer.Rows
                           (map sample_row ClinicalScenarioAnalyzer.scenario_categories));
                 expert_responses := None;
                 nasss_data := None;
                 reaim_data := None |}
              (map sample_row ClinicalScenarioAnalyzer.scenario_categories))
    as (rep & Hrep & _ & Hach & _).
  - exists "pwa_score". split; [compute_done | now exists 95%Q].
  - reflexivity.
  - intros c Hc. exists (sample_row c). split; [| reflexivity].
    apply list_elem_of_fmap. now exists c.
  - reflexivity.
  - exists rep. split; [exact Hrep |]. rewrite Hach.
    vm_compute in Hrep. injection Hrep as <-. reflexivity.
Defined.

End IntegratedExamples.
